(** * Delta assistant: the command router, the restricted evaluator,
      the memory store and the alarm unit of [delta.py]

    The development embeds [delta.py] shallowly.

    - Python [str] values are Rocq strings.  The character operations
      ([lower], [strip], [capitalize], the two regular expressions) are
      modelled on ASCII text; bytes above 127 only occur inside the
      fixed reply texts of the source and are never inspected.
    - Python exceptions are values of [exn]; only classes derived from
      [Exception] occur, so [except Exception] catches every one of them.
    - Python [int] is [Z]; Python [float] is IEEE-754 binary64, taken from
      the standard library's [spec_float] with [prec = 53], [emax = 1024].
    - What the interpreter and the machine provide but the repository does
      not define is a parameter: libm, float [**] and [repr] are fields of
      [Numeric]; the wall clock, the HTTP replies and the other
      collaborators are fields of [Services].
    - Modules [ast] and [math] behave as in CPython 3.10 to 3.13. *)

From Stdlib Require Import ZArith String Ascii List Bool Lia.
From Stdlib Require Import Floats.SpecFloat.
From stdpp Require Import gmap strings pretty.
Import ListNotations.

#[local] Set Warnings "-register-all".
#[local] Open Scope string_scope.
#[local] Open Scope Z_scope.

(** ** Python string operations *)

Module PyStr.

Definition ord (c : ascii) : Z := Z.of_N (N_of_ascii c).
Definition chr (z : Z) : ascii := ascii_of_N (Z.to_N z).

Definition between (lo hi : Z) (c : ascii) : bool :=
  (lo <=? ord c) && (ord c <=? hi).

(** [str.isspace] on ASCII: TAB..CR, FS..US and the space. *)
Definition isspace (c : ascii) : bool := between 9 13 c || between 28 32 c.
Definition isupper (c : ascii) : bool := between 65 90 c.
Definition islower (c : ascii) : bool := between 97 122 c.
Definition isalpha (c : ascii) : bool := isupper c || islower c.
Definition isdigit (c : ascii) : bool := between 48 57 c.

Definition lower_char (c : ascii) : ascii :=
  if isupper c then chr (ord c + 32) else c.
Definition upper_char (c : ascii) : ascii :=
  if islower c then chr (ord c - 32) else c.

Fixpoint map_chars (f : ascii -> ascii) (s : string) : string :=
  match s with
  | EmptyString => EmptyString
  | String c r => String (f c) (map_chars f r)
  end.

(** [s.lower()] *)
Definition lower (s : string) : string := map_chars lower_char s.

(** [s.capitalize()] *)
Definition capitalize (s : string) : string :=
  match s with
  | EmptyString => EmptyString
  | String c r => String (upper_char c) (lower r)
  end.

Definition is_empty (s : string) : bool :=
  match s with EmptyString => true | _ => false end.

(** [s.startswith(p)] *)
Fixpoint startswith (s p : string) : bool :=
  match p with
  | EmptyString => true
  | String a p' =>
      match s with
      | EmptyString => false
      | String b s' => Ascii.eqb a b && startswith s' p'
      end
  end.

(** [sub in s] *)
Fixpoint contains (sub s : string) : bool :=
  startswith s sub ||
  match s with
  | EmptyString => false
  | String _ r => contains sub r
  end.

(** [ch in s] for a single character *)
Fixpoint has_char (c : ascii) (s : string) : bool :=
  match s with
  | EmptyString => false
  | String d r => Ascii.eqb c d || has_char c r
  end.

(** [any(ch in s for ch in chars)] *)
Fixpoint any_char_in (chars s : string) : bool :=
  match chars with
  | EmptyString => false
  | String c r => has_char c s || any_char_in r s
  end.

Fixpoint drop (n : nat) (s : string) : string :=
  match n, s with
  | O, _ => s
  | S _, EmptyString => EmptyString
  | S k, String _ r => drop k r
  end.

(** [s.replace(old, new)] for a non-empty [old]: a left-to-right scan over
    non-overlapping occurrences; [skip] counts the characters of the
    occurrence just replaced that are still to be passed over. *)
Fixpoint replace_from (old new : string) (skip : nat) (s : string) : string :=
  match s with
  | EmptyString => EmptyString
  | String c r =>
      match skip with
      | S k => replace_from old new k r
      | O =>
          if startswith s old
          then new ++ replace_from old new (String.length old - 1) r
          else String c (replace_from old new O r)
      end
  end.

Definition replace (s old new : string) : string := replace_from old new O s.

Fixpoint lstrip (s : string) : string :=
  match s with
  | EmptyString => EmptyString
  | String c r => if isspace c then lstrip r else s
  end.

Fixpoint rstrip (s : string) : string :=
  match s with
  | EmptyString => EmptyString
  | String c r =>
      let r' := rstrip r in
      if isspace c && is_empty r' then EmptyString else String c r'
  end.

(** [s.strip()] *)
Definition strip (s : string) : string := rstrip (lstrip s).

Fixpoint take_while (p : ascii -> bool) (s : string) : string :=
  match s with
  | EmptyString => EmptyString
  | String c r => if p c then String c (take_while p r) else EmptyString
  end.

Fixpoint drop_while (p : ascii -> bool) (s : string) : string :=
  match s with
  | EmptyString => EmptyString
  | String c r => if p c then drop_while p r else s
  end.

Fixpoint all_chars (p : ascii -> bool) (s : string) : bool :=
  match s with
  | EmptyString => true
  | String c r => p c && all_chars p r
  end.

(** [int(s)] for a string of ASCII digits *)
Definition digit_value (c : ascii) : Z := ord c - 48.
Fixpoint digits_to_Z (acc : Z) (s : string) : Z :=
  match s with
  | EmptyString => acc
  | String c r => digits_to_Z (10 * acc + digit_value c) r
  end.

(** [str(n)] for an integer *)
Definition of_Z (n : Z) : string := pretty n.

(** [f"{n:02d}"] for a non-negative integer *)
Definition format_02d (n : Z) : string :=
  if n <? 10 then "0" ++ of_Z n else of_Z n.

End PyStr.

(** ** Exceptions, results and values *)

(** The exception classes the modelled code can raise; all derive from
    [Exception]. *)
Inductive exn :=
| ValueError (msg : string)
| TypeError
| ZeroDivisionError
| OverflowError
| SyntaxError
| KeyError
| IndexError
| AttributeError
| OSError
| ServiceError.          (* a failure inside a third-party client library *)

Inductive outcome (A : Type) :=
| Return (a : A)
| Raise (e : exn).
Arguments Return {A} a.
Arguments Raise {A} e.

#[global] Instance outcome_ret : MRet outcome := fun A a => Return a.
#[global] Instance outcome_bind : MBind outcome := fun A B f m =>
  match m with
  | Return a => f a
  | Raise e => Raise e
  end.

(** [try: m except Exception: h] *)
Definition try_except {A : Type} (m : outcome A) (h : exn -> outcome A) : outcome A :=
  match m with
  | Return a => Return a
  | Raise e => h e
  end.

(** The functions of module [math] that [SAFE_NAMES] holds. *)
Inductive builtin :=
| m_sin | m_cos | m_tan | m_sqrt | m_log | m_log10
| m_ceil | m_floor | m_factorial | m_fabs.

Definition builtin_name (f : builtin) : string :=
  match f with
  | m_sin => "sin" | m_cos => "cos" | m_tan => "tan" | m_sqrt => "sqrt"
  | m_log => "log" | m_log10 => "log10" | m_ceil => "ceil" | m_floor => "floor"
  | m_factorial => "factorial" | m_fabs => "fabs"
  end.

(** The Python objects the evaluator can hold. *)
Inductive value :=
| VInt (z : Z)
| VBool (b : bool)
| VFloat (f : spec_float)
| VComplex (re im : spec_float)
| VFun (f : builtin).

Definition is_number (v : value) : bool :=
  match v with
  | VFun _ => false
  | _ => true
  end.

(** The functions of module [operator] that [ALLOWED_OPERATORS] holds. *)
Inductive pyfun :=
| op_add | op_sub | op_mul | op_truediv | op_pow | op_mod | op_floordiv | op_neg.

(** ** The interpreter and libm, as far as the evaluator reaches them *)

Record Numeric := {
  libm_sin : spec_float -> spec_float;
  libm_cos : spec_float -> spec_float;
  libm_tan : spec_float -> spec_float;
  libm_log : spec_float -> spec_float;
  libm_log10 : spec_float -> spec_float;
  (** [math.log] and [math.log10] of an integer too large for a float *)
  big_log : Z -> spec_float;
  big_log10 : Z -> spec_float;
  (** [float.__pow__], on two floats: a float, a complex or an error *)
  float_pow : spec_float -> spec_float -> outcome value;
  (** quotient and remainder of [float.__divmod__] for a non-zero divisor *)
  float_divmod : spec_float -> spec_float -> spec_float * spec_float;
  (** [+ - * / **] with at least one complex operand *)
  complex_arith : pyfun -> value -> value -> outcome value;
  (** whether the C [long] has 64 bits (else 32) *)
  wide_long : bool;
  (** [sys.get_int_max_str_digits()], [0] where there is no limit *)
  int_max_str_digits : Z;
  (** [repr] of a float and of a complex number *)
  float_repr : spec_float -> string;
  complex_repr : spec_float -> spec_float -> string
}.

(** The largest C [long]. *)
Definition LONG_MAX (num : Numeric) : Z :=
  if wide_long num then 2 ^ 63 - 1 else 2 ^ 31 - 1.

(** ** binary64 *)

Definition prec : Z := 53.
Definition emax : Z := 1024.

Definition is_nan (f : spec_float) : bool :=
  match f with S754_nan => true | _ => false end.
Definition is_inf (f : spec_float) : bool :=
  match f with S754_infinity _ => true | _ => false end.
Definition is_finite (f : spec_float) : bool := negb (is_nan f || is_inf f).
Definition is_zero (f : spec_float) : bool :=
  match f with S754_zero _ => true | _ => false end.
Definition is_positive (f : spec_float) : bool :=
  match f with
  | S754_finite false _ _ | S754_infinity false => true
  | _ => false
  end.

(** [PyLong_AsDouble]: round to nearest, ties to even; too large an integer
    raises [OverflowError]. *)
Definition float_of_Z (z : Z) : outcome spec_float :=
  let f := binary_normalize prec emax z 0 false in
  if is_inf f then Raise OverflowError else Return f.

(** The float nearest to [n / d] for [d > 0], with the sign [neg] when the
    quotient is zero. *)
Definition float_of_ratio (neg : bool) (n d : Z) : spec_float :=
  if n =? 0 then S754_zero neg
  else
    let '(q, e, l) := SFdiv_core_binary prec emax (Z.abs n) 0 d 0 in
    binary_round_aux prec emax neg q e l.

(** The value of the float literal [m * 10 ^ e10], [m >= 0]. *)
Definition float_of_decimal (m e10 : Z) : spec_float :=
  if 0 <=? e10 then binary_normalize prec emax (m * 10 ^ e10) 0 false
  else float_of_ratio false m (10 ^ (- e10)).

(** The integer below (at or above) a finite float: [floor], [ceil] followed
    by [PyLong_FromDouble]. *)
Definition float_to_Z (up : bool) (f : spec_float) : outcome Z :=
  match f with
  | S754_zero _ => Return 0
  | S754_nan => Raise (ValueError "cannot convert float NaN to integer")
  | S754_infinity _ => Raise OverflowError
  | S754_finite s m e =>
      let v := if s then Zneg m else Zpos m in
      if 0 <=? e then Return (v * 2 ^ e)
      else if up then Return (- ((- v) / 2 ^ (- e)))
      else Return (v / 2 ^ (- e))
  end.

(** [math.pi] and [math.e] *)
Definition math_pi : spec_float := S754_finite false 7074237752028440 (-51).
Definition math_e : spec_float := S754_finite false 6121026514868073 (-51).

Fixpoint fact (n : nat) : Z :=
  match n with
  | O => 1
  | S k => Z.of_nat n * fact k
  end.

(** ** The expression nodes of module [ast] *)

(** Binary operator classes. *)
Inductive operator :=
| Add | Sub | Mult | MatMult | Div | Mod | Pow
| LShift | RShift | BitOr | BitXor | BitAnd | FloorDiv.

(** Unary operator classes. *)
Inductive unaryop := Invert | Not | UAdd | USub.

(** [type(node.op)]: the key type of [ALLOWED_OPERATORS]. *)
Inductive op_type :=
| BinClass (o : operator)
| UnClass (u : unaryop).

(** The payload of [ast.Constant]. *)
Inductive constant :=
| CInt (z : Z)
| CFloat (f : spec_float)
| CComplex (im : spec_float)
| CBool (b : bool)
| CStr (s : string)
| CBytes (s : string)
| CNone
| CEllipsis.

(** [ast.expr].  The classes [_eval_node] never looks into ([BoolOp],
    [Compare], [Lambda], [IfExp], [Tuple], [List], [Dict], ...) are
    [OtherExpr], tagged with the class name. *)
Inductive node :=
| Constant (value : constant)
| BinOp (left : node) (op : operator) (right : node)
| UnaryOp (op : unaryop) (operand : node)
| Call (func : node) (args : list node) (keywords : list (option string * node))
| Name (id : string)
| Attribute (value : node) (attr : string)
| Subscript (value : node) (slice : node)
| Starred (value : node)
| OtherExpr (class : string) (children : list node).

(** ** Modules [operator] and [math] *)

Section Evaluator.
Context (num : Numeric).

(** Operands as C doubles ([PyFloat_AsDouble]). *)
Definition to_float (v : value) : outcome spec_float :=
  match v with
  | VInt z => float_of_Z z
  | VBool b => float_of_Z (Z.b2z b)
  | VFloat f => Return f
  | VComplex _ _ | VFun _ => Raise TypeError
  end.

Definition as_int (v : value) : option Z :=
  match v with
  | VInt z => Some z
  | VBool b => Some (Z.b2z b)
  | _ => None
  end.

Definition is_complex (v : value) : bool :=
  match v with VComplex _ _ => true | _ => false end.

(** [int] arithmetic. *)
Definition int_arith (f : pyfun) (x y : Z) : outcome value :=
  match f with
  | op_add => Return (VInt (x + y))
  | op_sub => Return (VInt (x - y))
  | op_mul => Return (VInt (x * y))
  | op_truediv =>
      if y =? 0 then Raise ZeroDivisionError
      else
        let q := float_of_ratio (xorb (x <? 0) (y <? 0)) x (Z.abs y) in
        if is_inf q then Raise OverflowError else Return (VFloat q)
  | op_floordiv =>
      if y =? 0 then Raise ZeroDivisionError else Return (VInt (x / y))
  | op_mod =>
      if y =? 0 then Raise ZeroDivisionError else Return (VInt (x mod y))
  | op_pow =>
      if 0 <=? y then Return (VInt (x ^ y))
      else
        fx ← float_of_Z x;
        fy ← float_of_Z y;
        float_pow num fx fy
  | op_neg => Raise TypeError
  end.

(** [float] arithmetic. *)
Definition float_arith (f : pyfun) (x y : spec_float) : outcome value :=
  match f with
  | op_add => Return (VFloat (SFadd prec emax x y))
  | op_sub => Return (VFloat (SFsub prec emax x y))
  | op_mul => Return (VFloat (SFmul prec emax x y))
  | op_truediv =>
      if is_zero y then Raise ZeroDivisionError
      else Return (VFloat (SFdiv prec emax x y))
  | op_floordiv =>
      if is_zero y then Raise ZeroDivisionError
      else Return (VFloat (fst (float_divmod num x y)))
  | op_mod =>
      if is_zero y then Raise ZeroDivisionError
      else Return (VFloat (snd (float_divmod num x y)))
  | op_pow => float_pow num x y
  | op_neg => Raise TypeError
  end.

(** A binary function of module [operator] on two objects: the numeric
    tower [int] (with [bool]) < [float] < [complex]. *)
Definition binary (f : pyfun) (a b : value) : outcome value :=
  match a, b with
  | VFun _, _ | _, VFun _ => Raise TypeError
  | _, _ =>
      match as_int a, as_int b with
      | Some x, Some y => int_arith f x y
      | _, _ =>
          if is_complex a || is_complex b then
            match f with
            | op_floordiv | op_mod => Raise TypeError
            | _ => complex_arith num f a b
            end
          else
            x ← to_float a;
            y ← to_float b;
            float_arith f x y
      end
  end.

(** [operator.neg] *)
Definition neg (a : value) : outcome value :=
  match a with
  | VInt z => Return (VInt (- z))
  | VBool b => Return (VInt (- Z.b2z b))
  | VFloat f => Return (VFloat (SFopp f))
  | VComplex re im => Return (VComplex (SFopp re) (SFopp im))
  | VFun _ => Raise TypeError
  end.

(** Calling a function of module [operator] with positional arguments. *)
Definition apply_op (f : pyfun) (args : list value) : outcome value :=
  match f, args with
  | op_neg, [a] => neg a
  | op_neg, _ => Raise TypeError
  | _, [a; b] => binary f a b
  | _, _ => Raise TypeError
  end.

(** [math_1]: one float in, one float out, with the domain checks; libm is
    taken to leave [errno] alone when its result is finite. *)
Definition math_1 (func : spec_float -> spec_float) (arg : value) : outcome value :=
  x ← to_float arg;
  let r := func x in
  if is_nan r && negb (is_nan x) then Raise (ValueError "math domain error")
  else if is_inf r && is_finite x then Raise (ValueError "math domain error")
  else Return (VFloat r).

(** [m_log] and [m_log10]: the logarithm of libm guarded on its domain. *)
Definition guarded_log (flog : spec_float -> spec_float) (x : spec_float) : spec_float :=
  if is_finite x then
    if is_positive x then flog x
    else if is_zero x then S754_infinity true
    else S754_nan
  else if is_nan x then x
  else if is_positive x then x
  else S754_nan.

(** [loghelper] *)
Definition loghelper (flog : spec_float -> spec_float) (fbig : Z -> spec_float)
    (arg : value) : outcome value :=
  match as_int arg with
  | Some z =>
      if z <=? 0 then Raise (ValueError "math domain error")
      else
        match float_of_Z z with
        | Return x => Return (VFloat (guarded_log flog x))
        | Raise _ => Return (VFloat (fbig z))
        end
  | None => math_1 (guarded_log flog) arg
  end.

(** [math.ceil] and [math.floor] *)
Definition round_to_int (up : bool) (arg : value) : outcome value :=
  match arg with
  | VInt z => Return (VInt z)
  | VBool b => Return (VInt (Z.b2z b))
  | VFloat f => z ← float_to_Z up f; Return (VInt z)
  | VComplex _ _ | VFun _ => Raise TypeError
  end.

(** [math.factorial] *)
Definition factorial (arg : value) : outcome value :=
  match as_int arg with
  | Some n =>
      if LONG_MAX num <? n then Raise OverflowError
      else if n <? 0 then
        Raise (ValueError "factorial() not defined for negative values")
      else Return (VInt (fact (Z.to_nat n)))
  | None => Raise TypeError
  end.

(** Calling a function of module [math] with positional arguments. *)
Definition apply_math (f : builtin) (args : list value) : outcome value :=
  match f, args with
  | m_sin, [x] => math_1 (libm_sin num) x
  | m_cos, [x] => math_1 (libm_cos num) x
  | m_tan, [x] => math_1 (libm_tan num) x
  | m_sqrt, [x] => math_1 (SFsqrt prec emax) x
  | m_fabs, [x] => math_1 SFabs x
  | m_log, [x] => loghelper (libm_log num) (big_log num) x
  | m_log, [x; base] =>
      n ← loghelper (libm_log num) (big_log num) x;
      d ← loghelper (libm_log num) (big_log num) base;
      binary op_truediv n d
  | m_log10, [x] => loghelper (libm_log10 num) (big_log10 num) x
  | m_ceil, [x] => round_to_int true x
  | m_floor, [x] => round_to_int false x
  | m_factorial, [x] => factorial x
  | _, _ => Raise TypeError
  end.

(** Calling an arbitrary object: only the functions are callable. *)
Definition call_object (callee : value) (args : list value) : outcome value :=
  match callee with
  | VFun f => apply_math f args
  | _ => Raise TypeError
  end.

(** [str(v)], as an f-string renders it. *)
Definition str_of_value (v : value) : string :=
  match v with
  | VInt z => PyStr.of_Z z
  | VBool true => "True"
  | VBool false => "False"
  | VFloat f => float_repr num f
  | VComplex re im => complex_repr num re im
  | VFun f => "<built-in function " ++ builtin_name f ++ ">"
  end.

(** ** The safe math evaluator *)

Definition ALLOWED_OPERATORS (t : op_type) : option pyfun :=
  match t with
  | BinClass Add => Some op_add
  | BinClass Sub => Some op_sub
  | BinClass Mult => Some op_mul
  | BinClass Div => Some op_truediv
  | BinClass Pow => Some op_pow
  | BinClass Mod => Some op_mod
  | BinClass FloorDiv => Some op_floordiv
  | UnClass USub => Some op_neg
  | _ => None
  end.

Definition SAFE_NAMES : gmap string value :=
  <["e" := VFloat math_e]> (<["pi" := VFloat math_pi]>
    (list_to_map
       (map (fun f => (builtin_name f, VFun f))
            [m_sin; m_cos; m_tan; m_sqrt; m_log; m_log10;
             m_ceil; m_floor; m_factorial; m_fabs]))).

(** A list comprehension [[f(a) for a in l]]: left to right, stopping at
    the first exception. *)
Definition comprehension {A B : Type} (f : A -> outcome B) : list A -> outcome (list B) :=
  fix go (l : list A) : outcome (list B) :=
    match l with
    | [] => Return []
    | a :: r => v ← f a; vs ← go r; Return (v :: vs)
    end.

Definition unsupported : outcome value := Raise (ValueError "Unsupported expression").

(** [_eval_node].  The source is a chain of [isinstance] tests whose inner
    [if] may fall through; the node classes are disjoint, so a node that
    falls through reaches the final [raise].  The [ast.Num] test is only
    true of a [Constant], which the first test has already consumed. *)
Fixpoint _eval_node (n : node) : outcome value :=
  match n with
  | Constant c =>
      match c with
      | CInt z => Return (VInt z)
      | CBool b => Return (VBool b)          (* [bool] is a subclass of [int] *)
      | CFloat f => Return (VFloat f)
      | _ => Raise (ValueError "Invalid constant")
      end
  | BinOp l o r =>
      left ← _eval_node l;
      right ← _eval_node r;
      match ALLOWED_OPERATORS (BinClass o) with
      | Some f => apply_op f [left; right]
      | None => unsupported
      end
  | UnaryOp o e =>
      match ALLOWED_OPERATORS (UnClass o) with
      | Some f => v ← _eval_node e; apply_op f [v]
      | None => unsupported
      end
  | Call (Name id) args _ =>
      match SAFE_NAMES !! id with
      | Some callee =>
          vs ← comprehension _eval_node args;
          call_object callee vs
      | None => unsupported
      end
  | Name id =>
      match SAFE_NAMES !! id with
      | Some v => Return v
      | None => unsupported
      end
  | _ => unsupported
  end.

End Evaluator.

(** ** [ast.parse(expr, mode="eval").body]

    CPython's parser is not part of the repository.  [ast_parse] follows
    the Python grammar on this fragment: decimal integer and float
    literals (no underscores, no prefixes), identifiers, simple quoted
    strings without escapes, [True], [False], [None], parentheses, the
    binary operators [| ^ & << >> + - * / // % @ **], the unary operators
    [+ - ~], calls with positional arguments followed by keyword arguments
    of distinct names, attribute access and subscripts, with blanks and
    tabs between tokens.  Any other input is answered with [SyntaxError];
    for input outside the fragment that is a limit of the model, not a
    statement about CPython. *)

Module Parser.
Import PyStr.

Inductive token :=
| TNumber (c : constant)
| TName (s : string)
| TString (s : string)
| TOp (s : string).

Definition reserved : list string :=
  ["and"; "as"; "assert"; "async"; "await"; "break"; "class"; "continue";
   "def"; "del"; "elif"; "else"; "except"; "finally"; "for"; "from";
   "global"; "if"; "import"; "in"; "is"; "lambda"; "nonlocal"; "not"; "or";
   "pass"; "raise"; "return"; "try"; "while"; "with"; "yield"].

Definition is_name_start (c : ascii) : bool := isalpha c || Ascii.eqb c "_".
Definition is_name_char (c : ascii) : bool := is_name_start c || isdigit c.

Definition two_char_ops : list string := ["**"; "//"; "<<"; ">>"].
Definition one_char_ops : string := "+-*/%^&|~@()[],.=".

(** The decimal exponent after [e] or [E]: sign and digits. *)
Definition scan_exponent (s : string) : option (Z * string) :=
  match s with
  | String c r =>
      if Ascii.eqb c "e" || Ascii.eqb c "E" then
        let '(sign, r1) :=
          match r with
          | String "+" r' => (1, r')
          | String "-" r' => (-1, r')
          | _ => (1, r)
          end in
        let ds := take_while isdigit r1 in
        if is_empty ds then None
        else Some (sign * digits_to_Z 0 ds, drop_while isdigit r1)
      else Some (0, s)
  | EmptyString => Some (0, s)
  end.

(** A number literal at the head of [s]: the constant and the rest. *)
Definition scan_number (s : string) : option (constant * string) :=
  let ip := take_while isdigit s in
  let r1 := drop_while isdigit s in
  let '(fp, r2, has_point) :=
    match r1 with
    | String "." r => (take_while isdigit r, drop_while isdigit r, true)
    | _ => (EmptyString, r1, false)
    end in
  if is_empty ip && is_empty fp then None
  else
    match scan_exponent r2 with
    | None => None
    | Some (ex, r3) =>
        let is_float := has_point || negb (String.eqb r2 r3) in
        let mant := digits_to_Z 0 (ip ++ fp) in
        let f := float_of_decimal mant (ex - Z.of_nat (String.length fp)) in
        match r3 with
        | String c r4 =>
            if Ascii.eqb c "j" || Ascii.eqb c "J" then
              match r4 with
              | String d _ => if is_name_char d then None else Some (CComplex f, r4)
              | EmptyString => Some (CComplex f, r4)
              end
            else if is_name_char c then None
            else if is_float then Some (CFloat f, r3)
            else if startswith ip "0" && negb (all_chars (Ascii.eqb "0") ip) then None
            else Some (CInt mant, r3)
        | EmptyString =>
            if is_float then Some (CFloat f, r3)
            else if startswith ip "0" && negb (all_chars (Ascii.eqb "0") ip) then None
            else Some (CInt mant, r3)
        end
    end.

(** A digit, or a point followed by a digit. *)
Definition starts_number (s : string) : bool :=
  match s with
  | String c r =>
      isdigit c ||
      (Ascii.eqb c "." && match r with String d _ => isdigit d | EmptyString => false end)
  | EmptyString => false
  end.

Definition is_plain_string_char (q c : ascii) : bool :=
  negb (Ascii.eqb c q) && negb (Ascii.eqb c "\") && between 32 126 c.

Fixpoint tokenize (fuel : nat) (s : string) : option (list token) :=
  match fuel with
  | O => None
  | S k =>
      match s with
      | EmptyString => Some []
      | String c r =>
          if Ascii.eqb c " " || Ascii.eqb c "009" then tokenize k r
          else if starts_number s then
            '(n, rest) ← scan_number s;
            ts ← tokenize k rest;
            Some (TNumber n :: ts)
          else if is_name_start c then
            ts ← tokenize k (drop_while is_name_char s);
            Some (TName (take_while is_name_char s) :: ts)
          else if Ascii.eqb c "'" || Ascii.eqb c "034" then
            let body := take_while (is_plain_string_char c) r in
            match drop_while (is_plain_string_char c) r with
            | String d rest =>
                if Ascii.eqb d c then
                  match r with
                  | String e (String e' _) =>
                      (* an empty literal followed by a third quote opens a
                         triple-quoted string, which is not modelled *)
                      if is_empty body && Ascii.eqb e c && Ascii.eqb e' c then None
                      else ts ← tokenize k rest; Some (TString body :: ts)
                  | _ => ts ← tokenize k rest; Some (TString body :: ts)
                  end
                else None
            | EmptyString => None
            end
          else if existsb (String.eqb (String.substring 0 2 s)) two_char_ops then
            ts ← tokenize k (drop 2 s);
            Some (TOp (String.substring 0 2 s) :: ts)
          else if has_char c one_char_ops then
            ts ← tokenize k r;
            Some (TOp (String c EmptyString) :: ts)
          else None
      end
  end.

Definition is_op (o : string) (t : token) : bool :=
  match t with
  | TOp s => String.eqb s o
  | _ => false
  end.

(** The binary operators below [**], loosest first; each level is left
    associative. *)
Definition binary_levels : list (list (string * operator)) :=
  [[("|", BitOr)]; [("^", BitXor)]; [("&", BitAnd)];
   [("<<", LShift); (">>", RShift)];
   [("+", Add); ("-", Sub)];
   [("*", Mult); ("/", Div); ("//", FloorDiv); ("%", Mod); ("@", MatMult)]].

Definition unary_ops : list (string * unaryop) :=
  [("+", UAdd); ("-", USub); ("~", Invert)].

Definition lookup_op {A : Type} (tbl : list (string * A)) (t : token) : option A :=
  match t with
  | TOp s => snd <$> find (fun p => String.eqb (fst p) s) tbl
  | _ => None
  end.

Definition is_identifier (x : string) : bool :=
  negb (existsb (String.eqb x) (["True"; "False"; "None"] ++ reserved)).

Fixpoint parse_level (fuel : nat) (lv : list (list (string * operator)))
    (ts : list token) {struct fuel} : option (node * list token) :=
  match fuel with
  | O => None
  | S k =>
      match lv with
      | [] => parse_factor k ts
      | tbl :: higher =>
          '(l, ts1) ← parse_level k higher ts;
          parse_rest k tbl higher l ts1
      end
  end
with parse_rest (fuel : nat) (tbl : list (string * operator))
    (higher : list (list (string * operator))) (left : node)
    (ts : list token) {struct fuel} : option (node * list token) :=
  match fuel with
  | O => None
  | S k =>
      match ts with
      | t :: ts1 =>
          match lookup_op tbl t with
          | Some o =>
              '(r, ts2) ← parse_level k higher ts1;
              parse_rest k tbl higher (BinOp left o r) ts2
          | None => Some (left, ts)
          end
      | [] => Some (left, ts)
      end
  end
with parse_factor (fuel : nat) (ts : list token) {struct fuel} : option (node * list token) :=
  match fuel with
  | O => None
  | S k =>
      match ts with
      | t :: ts1 =>
          match lookup_op unary_ops t with
          | Some u => '(e, ts2) ← parse_factor k ts1; Some (UnaryOp u e, ts2)
          | None => parse_power k ts
          end
      | [] => None
      end
  end
with parse_power (fuel : nat) (ts : list token) {struct fuel} : option (node * list token) :=
  match fuel with
  | O => None
  | S k =>
      '(p, ts1) ← parse_atom k ts;
      '(p', ts2) ← parse_trailers k p ts1;
      match ts2 with
      | t :: ts3 =>
          if is_op "**" t
          then '(e, ts4) ← parse_factor k ts3; Some (BinOp p' Pow e, ts4)
          else Some (p', ts2)
      | [] => Some (p', ts2)
      end
  end
with parse_atom (fuel : nat) (ts : list token) {struct fuel} : option (node * list token) :=
  match fuel with
  | O => None
  | S k =>
      match ts with
      | TNumber c :: r => Some (Constant c, r)
      | TString s :: r =>
          match r with
          | TString _ :: _ => None      (* adjacent literals are not modelled *)
          | _ => Some (Constant (CStr s), r)
          end
      | TName x :: r =>
          if String.eqb x "True" then Some (Constant (CBool true), r)
          else if String.eqb x "False" then Some (Constant (CBool false), r)
          else if String.eqb x "None" then Some (Constant CNone, r)
          else if is_identifier x then Some (Name x, r)
          else None
      | TOp o :: r =>
          if String.eqb o "(" then
            '(e, ts1) ← parse_level k binary_levels r;
            match ts1 with
            | t :: ts2 => if is_op ")" t then Some (e, ts2) else None
            | [] => None
            end
          else None
      | [] => None
      end
  end
with parse_trailers (fuel : nat) (n : node) (ts : list token) {struct fuel} : option (node * list token) :=
  match fuel with
  | O => None
  | S k =>
      match ts with
      | TOp o :: r =>
          if String.eqb o "(" then
            '(a, kw, ts1) ← parse_args k false r;
            if bool_decide (NoDup (fst <$> kw))
            then parse_trailers k (Call n a kw) ts1
            else None
          else if String.eqb o "." then
            match r with
            | TName a :: ts1 =>
                if is_identifier a then parse_trailers k (Attribute n a) ts1 else None
            | _ => None
            end
          else if String.eqb o "[" then
            '(e, ts1) ← parse_level k binary_levels r;
            match ts1 with
            | t :: ts2 => if is_op "]" t then parse_trailers k (Subscript n e) ts2 else None
            | [] => None
            end
          else Some (n, ts)
      | _ => Some (n, ts)
      end
  end
with parse_args (fuel : nat) (seen_keyword : bool) (ts : list token) {struct fuel}
    : option (list node * list (option string * node) * list token) :=
  match fuel with
  | O => None
  | S k =>
      match ts with
      | [] => None
      | t :: r =>
          if is_op ")" t then Some ([], [], r)
          else
            let keyword :=
              match ts with
              | TName x :: t' :: r' =>
                  if is_op "=" t' then Some (x, r') else None
              | _ => None
              end in
            match keyword with
            | Some (x, r') =>
                if is_identifier x then
                  '(e, ts1) ← parse_level k binary_levels r';
                  match ts1 with
                  | t1 :: ts2 =>
                      if is_op "," t1 then
                        '(a, kw, ts3) ← parse_args k true ts2;
                        Some (a, (Some x, e) :: kw, ts3)
                      else if is_op ")" t1 then Some ([], [(Some x, e)], ts2)
                      else None
                  | [] => None
                  end
                else None
            | None =>
                if seen_keyword then None
                else
                  '(e, ts1) ← parse_level k binary_levels ts;
                  match ts1 with
                  | t1 :: ts2 =>
                      if is_op "," t1 then
                        '(a, kw, ts3) ← parse_args k false ts2;
                        Some (e :: a, kw, ts3)
                      else if is_op ")" t1 then Some ([e], [], ts2)
                      else None
                  | [] => None
                  end
            end
      end
  end.

Definition parse_expression (ts : list token) : option node :=
  match parse_level (20 * S (length ts)) binary_levels ts with
  | Some (n, []) => Some n
  | _ => None
  end.

End Parser.

(** [ast.parse(expr, mode="eval").body].  A leading blank or tab is an
    unexpected indent. *)
Definition ast_parse (expr : string) : outcome node :=
  match expr with
  | String c _ =>
      if Ascii.eqb c " " || Ascii.eqb c "009" then Raise SyntaxError
      else
        match Parser.tokenize (S (String.length expr)) expr with
        | Some ts =>
            match Parser.parse_expression ts with
            | Some n => Return n
            | None => Raise SyntaxError
            end
        | None => Raise SyntaxError
        end
  | EmptyString => Raise SyntaxError
  end.

(** [_safe_eval]: every exception of the parser or of the evaluation
    becomes [ValueError("Invalid expression")]. *)
Definition _safe_eval (num : Numeric) (expr : string) : outcome value :=
  try_except
    (node ← ast_parse expr; _eval_node num node)
    (fun _ => Raise (ValueError "Invalid expression")).

(** ** The process: environment, disk, module globals and effects *)

(** What [json.load] returns. *)
Inductive json :=
| JNull
| JBool (b : bool)
| JInt (z : Z)
| JFloat (f : spec_float)
| JStr (s : string)
| JList (l : list json)
| JDict (d : gmap string json).

(** A file is either a JSON document or something [json.load] rejects. *)
Inductive file_content :=
| Garbage
| JsonDocument (j : json).

(** The part of the file system the program touches: the files, and the
    paths on which [open(path, "r")], respectively [open(path, "w")],
    fails. *)
Record disk := {
  files : gmap string file_content;
  unreadable : gset string;
  unwritable : gset string
}.

(** The target of a started daemon thread. *)
Inductive task :=
| Tts (text : string)
| PywhatkitSearch (query : string)
| WebbrowserOpen (url : string)
| AlarmThread (alarm_time message : string)
| ReminderThread (minutes : Z) (action : string)
| PlayOnYt (query : string).

Inductive level := DEBUG | INFO | WARNING.

(** What the process does to the outside, in order. *)
Inductive event :=
| ThreadStart (t : task)
| Log (l : level) (msg : string)
| HttpGet (url : string)
| WikipediaSummary (topic : string)
| FileWrite (path : string)
| OsSystem (command : string)
| OsStartfile (path : string)
| Sleep (seconds : Z).

(** The replies of the collaborators, classified by the tests the handlers
    make on them; the fields are the texts [str] renders, [None] standing
    for a key the reply lacks. *)
Inductive weather_reply :=
| WeatherCurrent (cond temp hum wind : string)
| WeatherError (message : option string)
| WeatherOther
| WeatherFailure.

Inductive news_reply :=
| NewsOk (titles : list (option string))
| NewsNotOk
| NewsFailure.

Inductive definition_reply :=
| DefinitionFound (text : option string)
| DefinitionMissing
| DefinitionFailure.

Record Services := {
  (** [datetime.datetime.now().strftime(fmt)] *)
  strftime : string -> string;
  (** [wikipedia.summary(topic, sentences=2)] *)
  wikipedia_summary : string -> outcome string;
  (** [pyjokes.get_joke()] *)
  get_joke : string;
  (** [requests.get(url, timeout=6).json()], per provider *)
  weather_api : string -> weather_reply;
  news_api : string -> news_reply;
  dictionary_api : string -> definition_reply;
  (** [os.startfile(path)] *)
  startfile : string -> outcome unit;
  (** [str] of a JSON value that is not a string, an integer, a boolean or
      [None] *)
  object_str : json -> string
}.

(** The module globals of [delta.py], the disk and the trace of effects. *)
Record world := {
  MEMORY_FILE : string;
  NEWS_API_KEY : string;
  WEATHER_API_KEY : string;
  EMAIL_SENDER : string;
  EMAIL_PASSWORD : string;
  memory : json;
  storage : disk;
  trace : list event
}.

Definition M (A : Type) : Type := world -> outcome A * world.

#[global] Instance M_ret : MRet M := fun A a w => (Return a, w).
#[global] Instance M_bind : MBind M := fun A B f m w =>
  match m w with
  | (Return a, w') => f a w'
  | (Raise e, w') => (Raise e, w')
  end.

Definition raise {A : Type} (e : exn) : M A := fun w => (Raise e, w).
Definition lift {A : Type} (o : outcome A) : M A := fun w => (o, w).
Definition get_world : M world := fun w => (Return w, w).

(** [try: m except Exception: h]; what [m] did before it raised stays. *)
Definition try_catch {A : Type} (m : M A) (h : exn -> M A) : M A := fun w =>
  match m w with
  | (Return a, w') => (Return a, w')
  | (Raise e, w') => h e w'
  end.

Definition emit (e : event) : M unit := fun w =>
  (Return tt,
   {| MEMORY_FILE := MEMORY_FILE w; NEWS_API_KEY := NEWS_API_KEY w;
      WEATHER_API_KEY := WEATHER_API_KEY w; EMAIL_SENDER := EMAIL_SENDER w;
      EMAIL_PASSWORD := EMAIL_PASSWORD w; memory := memory w;
      storage := storage w; trace := trace w ++ [e] |}).

Definition set_memory (m : json) : M unit := fun w =>
  (Return tt,
   {| MEMORY_FILE := MEMORY_FILE w; NEWS_API_KEY := NEWS_API_KEY w;
      WEATHER_API_KEY := WEATHER_API_KEY w; EMAIL_SENDER := EMAIL_SENDER w;
      EMAIL_PASSWORD := EMAIL_PASSWORD w; memory := m;
      storage := storage w; trace := trace w |}).

Definition set_storage (d : disk) : M unit := fun w =>
  (Return tt,
   {| MEMORY_FILE := MEMORY_FILE w; NEWS_API_KEY := NEWS_API_KEY w;
      WEATHER_API_KEY := WEATHER_API_KEY w; EMAIL_SENDER := EMAIL_SENDER w;
      EMAIL_PASSWORD := EMAIL_PASSWORD w; memory := memory w;
      storage := d; trace := trace w |}).

(** ** Memory helpers *)

(** [open(path, "r")] followed by [json.load]. *)
Definition read_json (d : disk) (path : string) : outcome json :=
  match files d !! path with
  | None => Raise OSError
  | Some c =>
      if bool_decide (path ∈ unreadable d) then Raise OSError
      else
        match c with
        | Garbage => Raise (ValueError "JSONDecodeError")
        | JsonDocument j => Return j
        end
  end.

(** [_load_memory], reading the file named [path]. *)
Definition _load_memory (d : disk) (path : string) : json :=
  match read_json d path with
  | Return j => j
  | Raise _ => JDict ∅
  end.

(** [open(path, "w")] followed by [json.dump(mem, f, indent=2)]. *)
Definition write_json (path : string) (mem : json) : M unit :=
  w ← get_world;
  let d := storage w in
  if bool_decide (path ∈ unwritable d) then raise OSError
  else
    set_storage {| files := <[path := JsonDocument mem]> (files d);
                   unreadable := unreadable d;
                   unwritable := unwritable d |};;
    emit (FileWrite path).

(** [_save_memory] *)
Definition _save_memory (mem : json) : M unit :=
  w ← get_world;
  try_catch (write_json (MEMORY_FILE w) mem)
    (fun _ => emit (Log WARNING "Failed to save memory: %s")).

(** [memory["name"] = v] *)
Definition setitem (obj : json) (key : string) (v : json) : outcome json :=
  match obj with
  | JDict d => Return (JDict (<[key := v]> d))
  | _ => Raise TypeError
  end.

(** [obj[key]] for a string key *)
Definition getitem (obj : json) (key : string) : outcome json :=
  match obj with
  | JDict d =>
      match d !! key with
      | Some v => Return v
      | None => Raise KeyError
      end
  | _ => Raise TypeError
  end.

(** [obj.get(key, default)] *)
Definition dict_get (obj : json) (key : string) (default : json) : outcome json :=
  match obj with
  | JDict d => Return (match d !! key with Some v => v | None => default end)
  | _ => Raise AttributeError
  end.

(** ** The three regular expressions, as [re.search] applies them *)

Module Re.
Import PyStr.

(** The tail [ ([a-zA-Z\s]+)] of the weather pattern, anchored at [s]. *)
Definition city_group (s : string) : option string :=
  match s with
  | String " " r =>
      let g := take_while (fun c => isalpha c || isspace c) r in
      if is_empty g then None else Some g
  | _ => None
  end.

(** [weather(?: in| at)? ([a-zA-Z\s]+)] anchored at [s]: the optional
    group is tried with [ in], then with [ at], then left out. *)
Definition weather_at (s : string) : option string :=
  if startswith s "weather" then
    let r := drop 7 s in
    let with_in := if startswith r " in" then city_group (drop 3 r) else None in
    let with_at := if startswith r " at" then city_group (drop 3 r) else None in
    match with_in, with_at with
    | Some g, _ => Some g
    | None, Some g => Some g
    | None, None => city_group r
    end
  else None.

(** [re.search(r"weather(?: in| at)? ([a-zA-Z\s]+)", s)]: group 1 of the
    leftmost match. *)
Fixpoint search_weather (s : string) : option string :=
  match weather_at s with
  | Some g => Some g
  | None =>
      match s with
      | EmptyString => None
      | String _ r => search_weather r
      end
  end.

(** [(\d{1,2}:\d{2})] anchored at [s]: two digits first, then one. *)
Definition clock_at (s : string) : option string :=
  match s with
  | String a (String b (String c (String d (String e _)))) =>
      if isdigit a && isdigit b && Ascii.eqb c ":" && isdigit d && isdigit e
      then Some (String a (String b (String c (String d (String e EmptyString)))))
      else if isdigit a && Ascii.eqb b ":" && isdigit c && isdigit d
      then Some (String a (String b (String c (String d EmptyString))))
      else None
  | String a (String b (String c (String d EmptyString))) =>
      if isdigit a && Ascii.eqb b ":" && isdigit c && isdigit d
      then Some s
      else None
  | _ => None
  end.

(** [re.search(r"(\d{1,2}:\d{2})", s)]: group 1 of the leftmost match. *)
Fixpoint search_clock (s : string) : option string :=
  match clock_at s with
  | Some g => Some g
  | None =>
      match s with
      | EmptyString => None
      | String _ r => search_clock r
      end
  end.

(** [ in (\d+)\s*minutes?] anchored at [s]: the value of the digits. *)
Definition minutes_tail (s : string) : option Z :=
  if startswith s " in " then
    let ds := take_while isdigit (drop 4 s) in
    let r := drop_while isspace (drop_while isdigit (drop 4 s)) in
    if negb (is_empty ds) && startswith r "minute"
    then Some (digits_to_Z 0 ds) else None
  else None.

(** [(.+?)] followed by the tail: the shortest non-empty run without a
    newline after which the tail matches. *)
Fixpoint lazy_action (s : string) : option (string * Z) :=
  match s with
  | EmptyString => None
  | String c r =>
      if Ascii.eqb c "010" then None
      else
        match minutes_tail r with
        | Some m => Some (String c EmptyString, m)
        | None =>
            match lazy_action r with
            | Some (g, m) => Some (String c g, m)
            | None => None
            end
        end
  end.

(** [re.search(r"remind me to (.+?) in (\d+)\s*minutes?", s)]: groups 1
    and 2 of the leftmost match. *)
Fixpoint search_reminder (s : string) : option (string * Z) :=
  let here :=
    if startswith s "remind me to " then lazy_action (drop 13 s) else None in
  match here with
  | Some g => Some g
  | None =>
      match s with
      | EmptyString => None
      | String _ r => search_reminder r
      end
  end.

(** [s.split(":")] of a matched clock text: hours and minutes. *)
Definition split_clock (s : string) : string * string :=
  (take_while (fun c => negb (Ascii.eqb c ":")) s,
   drop 1 (drop_while (fun c => negb (Ascii.eqb c ":")) s)).

End Re.

(** ** The handlers *)

Section Handlers.
Context (num : Numeric) (svc : Services).
Import PyStr.

(** [speak], as the backend defines it: starts the speech thread, logs,
    and hands the text back. *)
Definition speak (text : string) : M string :=
  if is_empty text then mret ""
  else
    emit (ThreadStart (Tts text));;
    emit (Log INFO ("Delta (speech queued): " ++ text));;
    mret text.

Definition tell_time : M string :=
  speak ("The current time is " ++ strftime svc "%I:%M %p").

Definition tell_date : M string :=
  speak ("Today's date is " ++ strftime svc "%B %d, %Y").

Definition search_wikipedia (command : string) : M string :=
  let topic := strip (replace command "wikipedia" "") in
  if is_empty topic then speak "What should I search on Wikipedia?"
  else
    speak "Searching Wikipedia...";;
    try_catch
      (emit (WikipediaSummary topic);;
       info ← lift (wikipedia_summary svc topic);
       speak info)
      (fun _ =>
         emit (Log DEBUG "Wikipedia error: %s");;
         speak "Couldn't find information on Wikipedia.").

Definition search_google (command : string) : M string :=
  let query := strip (replace (replace command "search" "") "google" "") in
  if is_empty query then speak "What should I search for?"
  else
    emit (ThreadStart (PywhatkitSearch query));;
    speak ("Searching Google for " ++ query).

Definition open_app_or_website (command : string) : M string :=
  let cmd := lower command in
  if contains "youtube" cmd then
    emit (ThreadStart (WebbrowserOpen "https://www.youtube.com"));;
    speak "Opening YouTube."
  else if contains "google" cmd then
    emit (ThreadStart (WebbrowserOpen "https://www.google.com"));;
    speak "Opening Google."
  else if contains "notepad" cmd then
    (* [os.system] reports failure in its result, not by an exception *)
    emit (OsSystem "notepad");;
    speak "Opening Notepad."
  else if contains "chrome" cmd then
    try_catch
      (emit (OsStartfile "C:\Program Files\Google\Chrome\Application\chrome.exe");;
       lift (startfile svc "C:\Program Files\Google\Chrome\Application\chrome.exe");;
       speak "Opening Chrome.")
      (fun _ => speak "Unable to open Chrome. Please check the path.")
  else if startswith cmd "open " then
    let target := strip (replace command "open " "") in
    let target :=
      if negb (is_empty target) && contains "." target
         && negb (startswith target "http")
      then "http://" ++ target else target in
    if negb (is_empty target) then
      emit (ThreadStart (WebbrowserOpen target));;
      speak ("Opening " ++ target)
    else speak "I can't open that yet."
  else speak "I can't open that yet.".

Definition tell_joke : M string := speak (get_joke svc).

(** [get_weather] *)
Definition get_weather (city : string) : M string :=
  w ← get_world;
  if is_empty (WEATHER_API_KEY w) then
    speak "Weather is not configured. Set DELTA_WEATHER_API_KEY to enable weather."
  else
    let url := "http://api.weatherapi.com/v1/current.json?key=" ++ WEATHER_API_KEY w
               ++ "&q=" ++ city ++ "&aqi=no" in
    emit (HttpGet url);;
    match weather_api svc url with
    | WeatherCurrent cond temp hum wind =>
        speak ("The weather in " ++ city ++ " is " ++ cond ++ ", temperature "
               ++ temp ++ "°C, humidity " ++ hum ++ "%, wind " ++ wind ++ " kph.")
    | WeatherError message =>
        speak (match message with Some m => m | None => "Unknown location." end)
    | WeatherOther => speak "Couldn't fetch weather."
    | WeatherFailure =>
        emit (Log DEBUG "Weather error: %s");;
        speak "Weather lookup failed."
    end.

(** The loop of [get_news] over [enumerate(items, 1)]. *)
Fixpoint speak_headlines (i : Z) (items : list (option string)) : M (list string) :=
  match items with
  | [] => mret []
  | a :: rest =>
      let title := match a with Some t => t | None => "No title" end in
      let line := of_Z i ++ ". " ++ title in
      speak line;;
      lines ← speak_headlines (i + 1) rest;
      mret (line :: lines)
  end.

(** ["\n".join(lines)] *)
Fixpoint join_lines (lines : list string) : string :=
  match lines with
  | [] => ""
  | [l] => l
  | l :: rest => l ++ String "010" (join_lines rest)
  end.

Definition get_news : M string :=
  w ← get_world;
  if is_empty (NEWS_API_KEY w) then
    speak "News is not configured. Set DELTA_NEWS_API_KEY to enable headlines."
  else
    let url := "https://newsapi.org/v2/top-headlines?country=in&apiKey=" ++ NEWS_API_KEY w in
    emit (HttpGet url);;
    match news_api svc url with
    | NewsOk titles =>
        let items := take 5 titles in
        match items with
        | [] => speak "No news found."
        | _ =>
            speak "Here are the top headlines:";;
            headlines ← speak_headlines 1 items;
            mret (join_lines headlines)
        end
    | NewsNotOk => speak "Could not fetch news."
    | NewsFailure =>
        emit (Log DEBUG "News error: %s");;
        speak "News lookup failed."
    end.

(** [set_alarm] *)
Definition set_alarm (command : string) : M string :=
  match Re.search_clock command with
  | Some m =>
      let '(h, mi) := Re.split_clock m in
      let alarm_time := format_02d (digits_to_Z 0 h) ++ ":" ++ format_02d (digits_to_Z 0 mi) in
      emit (ThreadStart (AlarmThread alarm_time "Alarm ringing"));;
      speak ("Alarm set for " ++ alarm_time)
  | None => speak "Please tell me the alarm time in HH:MM format."
  end.

Definition set_reminder (command : string) : M string :=
  match Re.search_reminder command with
  | Some (g, minutes) =>
      let action := strip g in
      emit (ThreadStart (ReminderThread minutes action));;
      speak ("Reminder set for " ++ of_Z minutes ++ " minutes from now.")
  | None => speak "Please say reminders like: remind me to buy milk in 10 minutes."
  end.

Definition get_definition (word : string) : M string :=
  let url := "https://api.dictionaryapi.dev/api/v2/entries/en/" ++ word in
  emit (HttpGet url);;
  match dictionary_api svc url with
  | DefinitionFound (Some text) => speak text
  | DefinitionFound None => mret ""        (* [speak(None)] *)
  | DefinitionMissing => speak "I couldn't find a definition."
  | DefinitionFailure =>
      emit (Log DEBUG "Definition error: %s");;
      speak "Definition lookup failed."
  end.

(** [str(v)] for a value read from the memory file. *)
Definition str_of_json (j : json) : string :=
  match j with
  | JStr s => s
  | JInt z => of_Z z
  | JBool true => "True"
  | JBool false => "False"
  | JNull => "None"
  | _ => object_str svc j
  end.

(** [f"The result is {result}"]: since CPython 3.11 the decimal text of an
    integer with more than [sys.get_int_max_str_digits()] digits raises
    [ValueError]; a limit of [0] switches the check off. *)
Definition format_result (result : value) : outcome string :=
  match result with
  | VInt z =>
      let digits := Z.of_nat (String.length (of_Z (Z.abs z))) in
      if (0 <? int_max_str_digits num) && (int_max_str_digits num <? digits)
      then Raise (ValueError "Exceeds the limit for integer string conversion")
      else Return ("The result is " ++ str_of_value num result)
  | _ => Return ("The result is " ++ str_of_value num result)
  end.

(** ** The command handler *)

Definition process_command (command : string) : M string :=
  if is_empty command then
    speak "I didn't hear anything. Please say that again or type your command."
  else
  let cmd := strip (lower command) in
  (* Name setting *)
  if startswith cmd "call me " || startswith cmd "my name is " then
    let name := strip (replace (replace cmd "call me " "") "my name is " "") in
    w ← get_world;
    mem ← lift (setitem (memory w) "name" (JStr (capitalize name)));
    set_memory mem;;
    _save_memory mem;;
    stored ← lift (getitem mem "name");
    speak ("Okay, I'll call you " ++ str_of_json stored ++ ".")
  (* Basic info *)
  else if contains "time" cmd && negb (startswith cmd "time in") then tell_time
  else if contains "date" cmd then tell_date
  (* wikipedia *)
  else if contains "wikipedia" cmd then search_wikipedia cmd
  (* search / google *)
  else if startswith cmd "search " || contains "google" cmd then search_google cmd
  (* open *)
  else if contains "open" cmd then open_app_or_website cmd
  (* weather *)
  else if contains "weather" cmd then
    match Re.search_weather cmd with
    | Some g => get_weather (strip g)
    | None => speak "Which city would you like the weather for?"
    end
  (* news *)
  else if contains "news" cmd then get_news
  (* email *)
  else if contains "email" cmd then
    speak "To send an email, please provide recipient, subject and message in the UI."
  (* jokes *)
  else if contains "joke" cmd then tell_joke
  (* identity *)
  else if contains "your name" cmd || contains "who are you" cmd then
    speak "I am Delta, your personal AI assistant."
  else if contains "my name" cmd then
    w ← get_world;
    name ← lift (dict_get (memory w) "name" (JStr "not set yet"));
    speak ("Your name is " ++ str_of_json name ++ ".")
  (* exit / stop *)
  else if existsb (fun w => contains w cmd) ["exit"; "stop"; "quit"; "goodbye"] then
    speak "Goodbye. Shutting down."
  (* math *)
  else if contains "calculate" cmd || any_char_in "+-*/%^" cmd
          || startswith cmd "what is" then
    let expr := strip (replace (replace cmd "calculate" "") "what is" "") in
    try_catch
      (result ← lift (_safe_eval num expr);
       text ← lift (format_result result);
       speak text)
      (fun _ => speak "I couldn't calculate that.")
  (* alarm / reminder *)
  else if contains "set alarm" cmd || contains "alarm" cmd then set_alarm cmd
  else if contains "remind me" cmd then set_reminder cmd
  (* definition *)
  else if startswith cmd "define " || contains "definition of" cmd then
    let word := strip (replace (replace cmd "define " "") "definition of" "") in
    if negb (is_empty word) then get_definition word
    else speak "Which word should I define?"
  (* play youtube *)
  else if contains "play" cmd && contains "youtube" cmd then
    let q := strip (replace (replace cmd "play" "") "on youtube" "") in
    if negb (is_empty q) then
      emit (ThreadStart (PlayOnYt q));;
      speak ("Playing " ++ q ++ " on YouTube.")
    else speak "What should I play?"
  (* fallback *)
  else
    speak "I didn't understand that. Should I search the web for it?";;
    mret "I didn't understand that. Say 'yes' to search the web.".

(** [delta_process] *)
Definition delta_process (command : string) : M string := process_command command.

End Handlers.

(** ** Module initialisation *)

(** [os.environ.get(key, default)] *)
Definition environ_get (environ : gmap string string) (key default : string) : string :=
  match environ !! key with
  | Some v => v
  | None => default
  end.

(** The module-level statements of [delta.py], in order: the configuration
    is read from the environment, the key warnings are logged, and the
    memory is loaded.  The set-up of the speech engine and of the
    recogniser, which stands between them, is left out. *)
Definition startup (environ : gmap string string) (d : disk) : world :=
  let memory_file := environ_get environ "DELTA_MEMORY_FILE" "delta_memory.json" in
  let news_key := environ_get environ "DELTA_NEWS_API_KEY" "0530443142104c65965ccb122f9395a4" in
  let weather_key := environ_get environ "DELTA_WEATHER_API_KEY" "a201655e97c349c993883936250411" in
  let sender := environ_get environ "DELTA_EMAIL_SENDER" "" in
  let password := environ_get environ "DELTA_EMAIL_PASSWORD" "" in
  let warn (missing : bool) (msg : string) : list event :=
    if missing then [Log WARNING msg] else [] in
  {| MEMORY_FILE := memory_file;
     NEWS_API_KEY := news_key;
     WEATHER_API_KEY := weather_key;
     EMAIL_SENDER := sender;
     EMAIL_PASSWORD := password;
     memory := _load_memory d memory_file;
     storage := d;
     trace :=
       warn (PyStr.is_empty news_key)
         "DELTA_NEWS_API_KEY not set — news feature disabled until configured."
       ++ warn (PyStr.is_empty weather_key)
         "DELTA_WEATHER_API_KEY not set — weather feature disabled until configured."
       ++ warn (PyStr.is_empty sender || PyStr.is_empty password)
         "Email sender/password not set — email feature disabled until configured." |}.

(** ** The alarm thread *)

(** The [while True] loop of [_alarm_thread].  [clock] lists what
    [datetime.datetime.now().strftime("%H:%M")] reads in the successive
    rounds; the result tells whether the loop reached its [break] within
    these readings. *)
Fixpoint alarm_loop (alarm_time message : string) (clock : list string) : M bool :=
  match clock with
  | [] => mret false
  | now :: later =>
      if String.eqb now alarm_time then
        speak message;;
        mret true
      else
        emit (Sleep 10);;
        alarm_loop alarm_time message later
  end.

(** [_alarm_thread] *)
Definition _alarm_thread (alarm_time message : string) (clock : list string) : M bool :=
  speak ("Alarm set for " ++ alarm_time ++ ".");;
  alarm_loop alarm_time message clock.

(** What a started thread runs, for the alarm. *)
Definition run_task (t : task) (clock : list string) : M bool :=
  match t with
  | AlarmThread alarm_time message => _alarm_thread alarm_time message clock
  | _ => mret true
  end.

(** ** The words of the specification, for comparison with the code *)

Module Spec.

(** Every identifier an expression mentions, wherever it stands. *)
Fixpoint identifiers (n : node) : list string :=
  match n with
  | Constant _ => []
  | BinOp l _ r => identifiers l ++ identifiers r
  | UnaryOp _ e => identifiers e
  | Call f args kws =>
      identifiers f ++ flat_map identifiers args
      ++ flat_map (fun kw => let '(_, v) := kw in identifiers v) kws
  | Name id => [id]
  | Attribute v _ => identifiers v
  | Subscript v i => identifiers v ++ identifiers i
  | Starred v => identifiers v
  | OtherExpr _ children => flat_map identifiers children
  end.

(** The allow-list: ten functions and two constants. *)
Definition allow_list : list string :=
  ["sin"; "cos"; "tan"; "sqrt"; "log"; "log10"; "ceil"; "floor"; "factorial";
   "fabs"; "pi"; "e"].

(** Integer expressions over [+ - * // % **] and negation, and their
    mathematical value: floor division and the matching remainder, no value
    for a zero divisor or a negative exponent. *)
Inductive iexpr :=
| ILit (z : Z)
| IBin (l : iexpr) (o : operator) (r : iexpr)
| INeg (e : iexpr).

Fixpoint exact (e : iexpr) : option Z :=
  match e with
  | ILit z => Some z
  | INeg e => Z.opp <$> exact e
  | IBin l o r =>
      x ← exact l;
      y ← exact r;
      match o with
      | Add => Some (x + y)
      | Sub => Some (x - y)
      | Mult => Some (x * y)
      | FloorDiv => if y =? 0 then None else Some (x / y)
      | Mod => if y =? 0 then None else Some (x mod y)
      | Pow => if y <? 0 then None else Some (x ^ y)
      | _ => None
      end
  end.


End Spec.

(** ** A host for closed examples

    Its libm answers NaN everywhere and its collaborators fail; the closed
    examples below never reach them. *)

Definition plain_numeric : Numeric :=
  {| libm_sin := fun _ => S754_nan;
     libm_cos := fun _ => S754_nan;
     libm_tan := fun _ => S754_nan;
     libm_log := fun _ => S754_nan;
     libm_log10 := fun _ => S754_nan;
     big_log := fun _ => S754_nan;
     big_log10 := fun _ => S754_nan;
     float_pow := fun _ _ => Raise OverflowError;
     float_divmod := fun _ _ => (S754_nan, S754_nan);
     complex_arith := fun _ _ _ => Raise TypeError;
     wide_long := true;
     int_max_str_digits := 4300;
     float_repr := fun _ => "nan";
     complex_repr := fun _ _ => "nanj" |}.

Definition plain_services : Services :=
  {| strftime := fun _ => "";
     wikipedia_summary := fun _ => Raise ServiceError;
     get_joke := "";
     weather_api := fun _ => WeatherFailure;
     news_api := fun _ => NewsFailure;
     dictionary_api := fun _ => DefinitionFailure;
     startfile := fun _ => Raise OSError;
     object_str := fun _ => "" |}.

Definition empty_disk : disk :=
  {| files := ∅; unreadable := ∅; unwritable := ∅ |}.

(** ** Traces *)

(** The world after the events [evs] were emitted in order. *)
Definition log_to (w : world) (evs : list event) : world :=
  fold_left (fun w e => snd (emit e w)) evs w.

(** What [speak text] emits for a non-empty text. *)
Definition spoken (text : string) : list event :=
  [ThreadStart (Tts text); Log INFO ("Delta (speech queued): " ++ text)].

(** The reply of [get_weather] without a key. *)
Definition not_configured : string :=
  "Weather is not configured. Set DELTA_WEATHER_API_KEY to enable weather.".

(** The evaluated positions of an expression stay inside the evaluator's
    tables: the literals are [int], [float] or [bool], the operators are
    keys of [ALLOWED_OPERATORS], the names and call targets are keys of
    [SAFE_NAMES].  Keyword arguments are not looked at, as in the source. *)
Fixpoint reached_ok (n : node) : bool :=
  match n with
  | Constant (CInt _ | CFloat _ | CBool _) => true
  | BinOp l o r =>
      reached_ok l && reached_ok r && bool_decide (is_Some (ALLOWED_OPERATORS (BinClass o)))
  | UnaryOp o e =>
      bool_decide (is_Some (ALLOWED_OPERATORS (UnClass o))) && reached_ok e
  | Call (Name id) args _ =>
      bool_decide (is_Some (SAFE_NAMES !! id)) && forallb reached_ok args
  | Name id => bool_decide (is_Some (SAFE_NAMES !! id))
  | _ => false
  end.

Definition is_http (e : event) : bool :=
  match e with HttpGet _ => true | _ => false end.

Definition is_weather_warning (e : event) : bool :=
  match e with
  | Log WARNING msg =>
      String.eqb msg
        "DELTA_WEATHER_API_KEY not set — weather feature disabled until configured."
  | _ => false
  end.

Definition is_speech_of (text : string) (e : event) : bool :=
  match e with
  | ThreadStart (Tts t) => String.eqb t text
  | _ => false
  end.

(** The world once the record [mem] is in memory and on disk at the path
    of the memory file. *)
Definition remembering (w : world) (mem : json) : world :=
  {| MEMORY_FILE := MEMORY_FILE w; NEWS_API_KEY := NEWS_API_KEY w;
     WEATHER_API_KEY := WEATHER_API_KEY w; EMAIL_SENDER := EMAIL_SENDER w;
     EMAIL_PASSWORD := EMAIL_PASSWORD w; memory := mem;
     storage := {| files := <[MEMORY_FILE w := JsonDocument mem]> (files (storage w));
                   unreadable := unreadable (storage w);
                   unwritable := unwritable (storage w) |};
     trace := trace w |}.

(** ** The rest of the backend and its callers *)

(** What one round of [sr.Microphone] and [recognize_google] comes to. *)
Inductive hearing :=
| Recognized (text : string)
| UnknownValue             (* [sr.UnknownValueError] *)
| RequestFailure           (* [sr.RequestError] *)
| OtherFailure.            (* any other exception, the microphone included *)

(** [listen] *)
Definition listen (h : hearing) : M string :=
  match h with
  | Recognized text => mret (PyStr.lower text)
  | UnknownValue => mret ""
  | RequestFailure =>
      speak "Network error during speech recognition.";;
      mret ""
  | OtherFailure =>
      emit (Log DEBUG "Microphone/listen failed: %s");;
      mret ""
  end.

(** [delta_listen_once] *)
Definition delta_listen_once (h : hearing) : M string := listen h.

(** [greet_user], for the hour [datetime.datetime.now().hour] reads. *)
Definition greet_user (hour : Z) : M unit :=
  let speak_text :=
    if (0 <=? hour) && (hour <? 12) then
      "Good morning! I'm Delta, your personal AI assistant."
    else if (12 <=? hour) && (hour <? 18) then
      "Good afternoon! I'm Delta, your personal AI assistant."
    else "Good evening! I'm Delta, your personal AI assistant." in
  speak speak_text;;
  mret tt.

(** [send_email]; [transport] stands for the building of the message and
    the whole SMTP session. *)
Definition send_email (transport : string -> string -> string -> outcome unit)
    (to subject body : string) : M string :=
  w ← get_world;
  if PyStr.is_empty (EMAIL_SENDER w) || PyStr.is_empty (EMAIL_PASSWORD w) then
    speak "Email not configured. Set DELTA_EMAIL_SENDER and DELTA_EMAIL_PASSWORD to enable sending."
  else
    try_catch
      (lift (transport to subject body);;
       speak "Email sent successfully.")
      (fun _ =>
         emit (Log WARNING "Email failed: %s");;
         speak "Unable to send the email right now.").


(** One round of the console loop of [delta.py]: the utterance is routed
    unless it is empty.  The pause of 0.2 s after the routing is left
    out. *)
Definition console_round (num : Numeric) (svc : Services) (h : hearing)
    : M (option string) :=
  txt ← listen h;
  if PyStr.is_empty txt then mret None
  else resp ← process_command num svc txt; mret (Some resp).



(** [_handle_activation], as far as the backend goes: the inserts into the
    chat box are left out.  An exception of the router is caught. *)
Definition _handle_activation (num : Numeric) (svc : Services) (cmd : string)
    (follow_up : hearing) : M unit :=
  try_catch
    (if negb (PyStr.is_empty cmd) then
       process_command num svc cmd;;
       mret tt
     else
       more ← listen follow_up;
       if negb (PyStr.is_empty more) then
         process_command num svc more;;
         mret tt
       else mret tt)
    (fun _ => mret tt).

(** The task of [manual_listen], as far as the backend goes. *)
Definition manual_listen (num : Numeric) (svc : Services) (h : hearing) : M unit :=
  try_catch
    (cmd ← listen h;
     if PyStr.is_empty cmd then mret tt
     else
       try_catch (process_command num svc cmd;; mret tt) (fun _ => mret tt))
    (fun _ => mret tt).

(** ** Vocabulary of the further properties *)

Definition is_record (j : json) : bool :=
  match j with JDict _ => true | _ => false end.






(** [m], run in [w], ends in [w] with some events added, all of them in
    [P]; with [sure], it also returns whenever the memory is a record. *)
Definition adds_at {A : Type} (P : event -> Prop) (sure : bool) (m : M A) (w : world)
    : Prop :=
  exists (r : outcome A) (evs : list event),
    m w = (r, log_to w evs)
    /\ Forall P evs
    /\ (sure = true -> is_record (memory w) = true -> exists a, r = Return a).

Definition adds {A : Type} (P : event -> Prop) (sure : bool) (m : M A) : Prop :=
  forall w, adds_at P sure m w.

(** The identifiers of an expression outside its keyword arguments. *)
Fixpoint positional_identifiers (n : node) : list string :=
  match n with
  | Constant _ => []
  | BinOp l _ r => positional_identifiers l ++ positional_identifiers r
  | UnaryOp _ e => positional_identifiers e
  | Call f args _ => positional_identifiers f ++ flat_map positional_identifiers args
  | Name id => [id]
  | Attribute v _ => positional_identifiers v
  | Subscript v i => positional_identifiers v ++ positional_identifiers i
  | Starred v => positional_identifiers v
  | OtherExpr _ children => flat_map positional_identifiers children
  end.

(** Zero as an operand: [0], [False], [0.0] and [-0.0]. *)
Definition is_zero_value (v : value) : bool :=
  match v with
  | VInt z => z =? 0
  | VBool b => negb b
  | VFloat f => is_zero f
  | _ => false
  end.

(** What [strftime("%H:%M")] reads at [h] hours and [m] minutes. *)
Definition clock_text (h m : Z) : string :=
  PyStr.format_02d h ++ ":" ++ PyStr.format_02d m.

(** The target [set_alarm] makes of a matched clock text. *)
Definition alarm_target (g : string) : string :=
  let '(h, mi) := Re.split_clock g in
  clock_text (PyStr.digits_to_Z 0 h) (PyStr.digits_to_Z 0 mi).

(** The two ways to write the time [h]:[m] in an utterance: with two
    digits for the hour, and with as many as the hour needs. *)
Definition spoken_times (h m : Z) : list string :=
  [clock_text h m; PyStr.of_Z h ++ ":" ++ PyStr.format_02d m].

(** For the time [h]:[m], written either way after "set alarm for ": the
    pattern finds the text and the target is the reading of that time. *)
Definition targets_reading (h m : Z) : bool :=
  forallb
    (fun g =>
       match Re.search_clock ("set alarm for " ++ g) with
       | Some g' => String.eqb g' g && String.eqb (alarm_target g') (clock_text h m)
       | None => false
       end)
    (spoken_times h m).

Definition below (n : nat) : list Z := Z.of_nat <$> seq 0 n.

(** The lines [get_news] builds, numbered from [i]. *)
Fixpoint headlines (i : Z) (items : list (option string)) : list string :=
  match items with
  | [] => []
  | a :: rest =>
      (PyStr.of_Z i ++ ". " ++ match a with Some t => t | None => "No title" end)
      :: headlines (i + 1) rest
  end.

(** Two disks for closed examples: one whose memory file holds a list,
    one whose memory file cannot be written. *)
Definition list_on_disk : disk :=
  {| files := {["delta_memory.json" := JsonDocument (JList [])]};
     unreadable := ∅; unwritable := ∅ |}.


(** ** Induction over expressions, through the argument lists *)

Section NodeInduction.
Variable P : node -> Prop.
Hypothesis HConstant : forall c, P (Constant c).
Hypothesis HBinOp : forall l o r, P l -> P r -> P (BinOp l o r).
Hypothesis HUnaryOp : forall o e, P e -> P (UnaryOp o e).
Hypothesis HCall : forall f args kws,
  P f -> Forall P args -> Forall (fun kw => P (snd kw)) kws -> P (Call f args kws).
Hypothesis HName : forall id, P (Name id).
Hypothesis HAttribute : forall v a, P v -> P (Attribute v a).
Hypothesis HSubscript : forall v i, P v -> P i -> P (Subscript v i).
Hypothesis HStarred : forall v, P v -> P (Starred v).
Hypothesis HOther : forall c children, Forall P children -> P (OtherExpr c children).

Fixpoint node_induction (n : node) : P n :=
  match n with
  | Constant c => HConstant c
  | BinOp l o r => HBinOp l o r (node_induction l) (node_induction r)
  | UnaryOp o e => HUnaryOp o e (node_induction e)
  | Call f args kws =>
      HCall f args kws (node_induction f)
        ((fix go (l : list node) : Forall P l :=
            match l with
            | [] => @List.Forall_nil _ _
            | a :: r => @List.Forall_cons _ P a r (node_induction a) (go r)
            end) args)
        ((fix go (l : list (option string * node)) : Forall (fun kw => P (snd kw)) l :=
            match l with
            | [] => @List.Forall_nil _ _
            | kw :: r =>
                @List.Forall_cons _ (fun kw => P (snd kw)) kw r
                  (match kw return P (snd kw) with (_, v) => node_induction v end)
                  (go r)
            end) kws)
  | Name id => HName id
  | Attribute v a => HAttribute v a (node_induction v)
  | Subscript v i => HSubscript v i (node_induction v) (node_induction i)
  | Starred v => HStarred v (node_induction v)
  | OtherExpr c children =>
      HOther c children
        ((fix go (l : list node) : Forall P l :=
            match l with
            | [] => @List.Forall_nil _ _
            | a :: r => @List.Forall_cons _ P a r (node_induction a) (go r)
            end) children)
  end.

End NodeInduction.

(** * Properties *)

(** ** Strings *)

Section StringFacts.
Import PyStr.

Lemma lower_char_space c : isspace c = true -> lower_char c = c.
Proof.
  unfold lower_char, isspace, isupper, between. intros H.
  destruct (65 <=? ord c) eqn:E1; [|reflexivity].
  destruct (ord c <=? 90) eqn:E2; [|reflexivity].
  exfalso. apply Z.leb_le in E1. apply Z.leb_le in E2.
  apply orb_true_iff in H as [H|H]; apply andb_true_iff in H as [_ H];
    apply Z.leb_le in H; lia.
Qed.

Lemma lower_blank s : all_chars isspace s = true -> lower s = s.
Proof.
  induction s as [|c s IH]; simpl; [reflexivity|].
  intros H. apply andb_true_iff in H as [Hc Hs].
  unfold lower in *. simpl. rewrite lower_char_space, IH; auto.
Qed.

Lemma lstrip_blank s : all_chars isspace s = true -> lstrip s = "".
Proof.
  induction s as [|c s IH]; simpl; [reflexivity|].
  intros H. apply andb_true_iff in H as [Hc Hs]. rewrite Hc. auto.
Qed.

(** A text of whitespace alone is normalised to the empty command. *)
Lemma normalise_blank s : all_chars isspace s = true -> strip (lower s) = "".
Proof.
  intros H. rewrite lower_blank by assumption.
  unfold strip. rewrite lstrip_blank by assumption. reflexivity.
Qed.

End StringFacts.

(** ** Traces and speech *)

Lemma trace_log_to w evs : trace (log_to w evs) = (trace w ++ evs)%list.
Proof.
  revert w. induction evs as [|e evs IH]; intros w; simpl.
  - by rewrite app_nil_r.
  - unfold log_to in *. simpl. rewrite IH. simpl. by rewrite <- app_assoc.
Qed.

Lemma memory_log_to w evs : memory (log_to w evs) = memory w.
Proof.
  revert w. induction evs as [|e evs IH]; intros w; [reflexivity|].
  unfold log_to in *. simpl. by rewrite IH.
Qed.

Lemma storage_log_to w evs : storage (log_to w evs) = storage w.
Proof.
  revert w. induction evs as [|e evs IH]; intros w; [reflexivity|].
  unfold log_to in *. simpl. by rewrite IH.
Qed.

Lemma log_to_app w evs evs' : log_to w (evs ++ evs') = log_to (log_to w evs) evs'.
Proof. unfold log_to. apply fold_left_app. Qed.

Lemma speak_nonempty text w :
  PyStr.is_empty text = false -> speak text w = (Return text, log_to w (spoken text)).
Proof. intros H. unfold speak. rewrite H. reflexivity. Qed.

Lemma speak_logs text w : exists evs, snd (speak text w) = log_to w evs.
Proof.
  unfold speak. destruct (PyStr.is_empty text).
  - by exists [].
  - by exists (spoken text).
Qed.

(** ** Routing *)

Section Routing.
Context (num : Numeric) (svc : Services).

(** C2.  Utterances that contain "weather" are answered by the weather
    rule, which stands before the Calculate rule: "what is the weather in
    paris" is the weather request for the city "paris" although it starts
    with "what is", "weather in new york" is the request for "new york",
    and the bare "weather" is answered by the clarification request alone,
    with no lookup. *)
Theorem weather_before_calculate (w : world) :
  PyStr.startswith "what is the weather in paris" "what is" = true
  /\ process_command num svc "what is the weather in paris" w = get_weather svc "paris" w
  /\ process_command num svc "weather in new york" w = get_weather svc "new york" w
  /\ process_command num svc "weather" w =
       (Return "Which city would you like the weather for?",
        log_to w (spoken "Which city would you like the weather for?")).
Proof. repeat split; reflexivity. Qed.

(** The weather rule in general: an utterance with "weather" that none of
    the six rules before it takes is answered by the weather rule, whether
    or not the trigger of the Calculate rule holds for it. *)
Lemma weather_rule (command : string) (w : world) :
  let cmd := PyStr.strip (PyStr.lower command) in
  PyStr.is_empty command = false ->
  PyStr.startswith cmd "call me " || PyStr.startswith cmd "my name is " = false ->
  PyStr.contains "time" cmd && negb (PyStr.startswith cmd "time in") = false ->
  PyStr.contains "date" cmd = false ->
  PyStr.contains "wikipedia" cmd = false ->
  PyStr.startswith cmd "search " || PyStr.contains "google" cmd = false ->
  PyStr.contains "open" cmd = false ->
  PyStr.contains "weather" cmd = true ->
  process_command num svc command w =
    match Re.search_weather cmd with
    | Some g => get_weather svc (PyStr.strip g) w
    | None => speak "Which city would you like the weather for?" w
    end.
Proof.
  intros cmd H0 H1 H2 H3 H4 H5 H6 H7. unfold process_command.
  rewrite H0. fold cmd. cbv zeta.
  rewrite H1, H2, H3, H4, H5, H6, H7.
  destruct (Re.search_weather cmd); reflexivity.
Qed.

(** C5, as amended.  The empty utterance is answered by "I didn't hear
    anything" before any trigger is tested.  An utterance of whitespace
    alone is not empty: it is normalised to the empty command, matches no
    trigger and is answered by the fallback prompt.  In both cases nothing
    but the speech is emitted: no handler runs. *)
Theorem blank_utterance (command : string) (w : world) :
  PyStr.all_chars PyStr.isspace command = true ->
  process_command num svc command w =
    if PyStr.is_empty command then
      (Return "I didn't hear anything. Please say that again or type your command.",
       log_to w (spoken "I didn't hear anything. Please say that again or type your command."))
    else
      (Return "I didn't understand that. Say 'yes' to search the web.",
       log_to w (spoken "I didn't understand that. Should I search the web for it?")).
Proof.
  intros Hblank. destruct command as [|c r]; [reflexivity|].
  unfold process_command.
  change (PyStr.is_empty (String c r)) with false. cbv iota.
  rewrite (normalise_blank _ Hblank). reflexivity.
Qed.

End Routing.

Lemma blank_utterance_witness :
  PyStr.all_chars PyStr.isspace "   " = true
  /\ fst (process_command plain_numeric plain_services "   " (startup ∅ empty_disk))
     = Return "I didn't understand that. Say 'yes' to search the web.".
Proof.
  split; [reflexivity|].
  rewrite (blank_utterance plain_numeric plain_services "   " _ eq_refl).
  reflexivity.
Defined.

(** C5, as stated, fails: three blanks are not answered by "I didn't hear
    anything". *)
Lemma blank_utterance_counterexample :
  PyStr.all_chars PyStr.isspace "   " = true
  /\ fst (process_command plain_numeric plain_services "   " (startup ∅ empty_disk))
     <> Return "I didn't hear anything. Please say that again or type your command.".
Proof. split; [reflexivity|]. vm_compute. discriminate. Qed.

(** ** The memory store *)

Section Memory.
Context (num : Numeric) (svc : Services).

Ltac run_M :=
  unfold mbind, M_bind, mret, M_ret, get_world, lift, raise, try_catch;
  cbv beta iota.


Lemma load_document (d : disk) (path : string) (j : json) :
  files d !! path = Some (JsonDocument j) -> path ∉ unreadable d ->
  _load_memory d path = j.
Proof.
  intros Hf Hr. unfold _load_memory, read_json. rewrite Hf.
  by rewrite bool_decide_eq_false_2.
Qed.

Lemma my_name_branch (w : world) :
  process_command num svc "my name" w =
  (w0 ← get_world;
   name ← lift (dict_get (memory w0) "name" (JStr "not set yet"));
   speak ("Your name is " ++ str_of_json svc name ++ ".")) w.
Proof. reflexivity. Qed.

Lemma call_me_branch (w : world) :
  process_command num svc "call me Ada" w =
  (w0 ← get_world;
   mem ← lift (setitem (memory w0) "name" (JStr "Ada"));
   set_memory mem;;
   _save_memory mem;;
   stored ← lift (getitem mem "name");
   speak ("Okay, I'll call you " ++ str_of_json svc stored ++ ".")) w.
Proof. reflexivity. Qed.

(** The name query on a record: the stored name, or the default. *)
Lemma my_name_reply (w : world) (rec : gmap string json) :
  memory w = JDict rec ->
  process_command num svc "my name" w =
    let name := match rec !! "name" with Some v => v | None => JStr "not set yet" end in
    (Return ("Your name is " ++ str_of_json svc name ++ "."),
     log_to w (spoken ("Your name is " ++ str_of_json svc name ++ "."))).
Proof.
  intros Hm. rewrite my_name_branch. run_M.
  unfold dict_get. rewrite Hm. reflexivity.
Qed.

(** Setting the name on a record whose file can be written. *)
Lemma call_me_reply (w : world) (rec : gmap string json) :
  memory w = JDict rec ->
  MEMORY_FILE w ∉ unwritable (storage w) ->
  process_command num svc "call me Ada" w =
    (Return "Okay, I'll call you Ada.",
     log_to (remembering w (JDict (<["name" := JStr "Ada"]> rec)))
       (FileWrite (MEMORY_FILE w) :: spoken "Okay, I'll call you Ada.")).
Proof.
  intros Hm Hw. rewrite call_me_branch. run_M.
  unfold setitem. rewrite Hm. cbv beta iota.
  unfold set_memory at 1. cbv beta iota.
  unfold _save_memory, write_json. run_M. cbn [storage MEMORY_FILE].
  rewrite bool_decide_eq_false_2 by assumption.
  unfold set_storage at 1. cbv beta iota.
  unfold emit at 1. cbv beta iota.
  cbn [storage MEMORY_FILE NEWS_API_KEY WEATHER_API_KEY EMAIL_SENDER EMAIL_PASSWORD
       memory trace].
  unfold getitem. rewrite lookup_insert_eq. reflexivity.
Qed.


(** C6.  A process started on a memory file that can be read and written
    and whose record is an object: after "call me Ada" the name query
    answers "Ada", and so it does in a process restarted with the same
    environment on the disk the first one left. *)
Theorem name_round_trip (environ : gmap string string) (d : disk) :
  let path := environ_get environ "DELTA_MEMORY_FILE" "delta_memory.json" in
  let w0 := startup environ d in
  path ∉ unwritable d ->
  path ∉ unreadable d ->
  (exists rec, memory w0 = JDict rec) ->
  exists w1 w2,
    process_command num svc "call me Ada" w0 = (Return "Okay, I'll call you Ada.", w1)
    /\ process_command num svc "my name" w1 = (Return "Your name is Ada.", w2)
    /\ files (storage w2) !! path = Some (JsonDocument (memory w2))
    /\ fst (process_command num svc "my name" (startup environ (storage w2)))
       = Return "Your name is Ada.".
Proof.
  intros path w0 Hw Hr [rec Hm].
  set (mem := JDict (<["name" := JStr "Ada"]> rec)).
  set (w1 := log_to (remembering w0 mem)
               (FileWrite (MEMORY_FILE w0) :: spoken "Okay, I'll call you Ada.")).
  assert (Hm1 : memory w1 = mem) by (unfold w1; by rewrite memory_log_to).
  assert (Hs1 : storage w1 = storage (remembering w0 mem))
    by (unfold w1; by rewrite storage_log_to).
  exists w1, (log_to w1 (spoken "Your name is Ada.")).
  split; [exact (call_me_reply w0 rec Hm Hw)|].
  split.
  { rewrite (my_name_reply w1 _ Hm1). by rewrite lookup_insert_eq. }
  rewrite storage_log_to, memory_log_to, Hs1, Hm1.
  assert (Hf : files (storage (remembering w0 mem)) !! path = Some (JsonDocument mem))
    by apply lookup_insert_eq.
  split; [exact Hf|].
  assert (Hload : memory (startup environ (storage (remembering w0 mem))) = mem)
    by (exact (load_document _ path mem Hf Hr)).
  rewrite (my_name_reply _ _ Hload). cbn [fst]. by rewrite lookup_insert_eq.
Qed.

End Memory.

Lemma name_round_trip_witness :
  exists w1 w2,
    process_command plain_numeric plain_services "call me Ada" (startup ∅ empty_disk)
      = (Return "Okay, I'll call you Ada.", w1)
    /\ process_command plain_numeric plain_services "my name" w1
      = (Return "Your name is Ada.", w2)
    /\ files (storage w2) !! "delta_memory.json" = Some (JsonDocument (memory w2))
    /\ fst (process_command plain_numeric plain_services "my name"
              (startup ∅ (storage w2)))
       = Return "Your name is Ada.".
Proof.
  refine (name_round_trip plain_numeric plain_services ∅ empty_disk _ _ _).
  - vm_compute. set_solver.
  - vm_compute. set_solver.
  - eexists. reflexivity.
Defined.


(** ** Configuration *)

Section Configuration.
Context (num : Numeric) (svc : Services).

Lemma get_weather_unconfigured (w : world) (city : string) :
  WEATHER_API_KEY w = "" ->
  get_weather svc city w = (Return not_configured, log_to w (spoken not_configured)).
Proof.
  intros Hk. unfold get_weather, mbind, M_bind, get_world. cbv beta iota.
  rewrite Hk. reflexivity.
Qed.

Lemma get_weather_configured (w : world) (city : string) :
  PyStr.is_empty (WEATHER_API_KEY w) = false ->
  exists later,
    trace (snd (get_weather svc city w))
    = (trace w
       ++ HttpGet ("http://api.weatherapi.com/v1/current.json?key=" ++ WEATHER_API_KEY w
                   ++ "&q=" ++ city ++ "&aqi=no") :: later)%list.
Proof.
  intros Hk. unfold get_weather, mbind, M_bind, get_world. cbv beta iota.
  rewrite Hk. unfold emit. cbv beta iota.
  match goal with |- context [weather_api svc ?u] => destruct (weather_api svc u) end;
    match goal with |- context [speak ?t ?w1] =>
      destruct (speak_logs t w1) as [evs ->]
    end;
    rewrite trace_log_to; cbn [trace]; rewrite <- !app_assoc; eexists; reflexivity.
Qed.

(** C9, as amended.  When the weather key is empty, which takes
    [DELTA_WEATHER_API_KEY] set to the empty text, start-up logs the
    weather warning exactly once and goes on, and every weather request is
    answered by the configuration-missing message with no network call. *)
Theorem weather_key_empty (environ : gmap string string) (d : disk) (city : string) :
  environ !! "DELTA_WEATHER_API_KEY" = Some "" ->
  let w := startup environ d in
  WEATHER_API_KEY w = ""
  /\ length (List.filter is_weather_warning (trace w)) = 1%nat
  /\ get_weather svc city w = (Return not_configured, log_to w (spoken not_configured))
  /\ List.filter is_http (trace (snd (get_weather svc city w))) = [].
Proof.
  intros Hk w.
  assert (Hkey : WEATHER_API_KEY w = "")
    by (unfold w, startup, environ_get; cbn [WEATHER_API_KEY]; by rewrite Hk).
  assert (Htrace : exists a b : bool,
            trace w = ((if a then [Log WARNING
                "DELTA_NEWS_API_KEY not set — news feature disabled until configured."]
                        else [])
              ++ [Log WARNING
                "DELTA_WEATHER_API_KEY not set — weather feature disabled until configured."]
              ++ (if b then [Log WARNING
                "Email sender/password not set — email feature disabled until configured."]
                  else []))%list).
  { unfold w, startup, environ_get. cbn [trace]. rewrite Hk. eexists _, _. reflexivity. }
  destruct Htrace as (a & b & Htrace).
  split; [exact Hkey|].
  split; [rewrite Htrace; by destruct a, b|].
  split; [exact (get_weather_unconfigured w city Hkey)|].
  rewrite (get_weather_unconfigured w city Hkey). cbn [snd].
  rewrite trace_log_to, Htrace. by destruct a, b.
Qed.

End Configuration.

Lemma weather_key_empty_witness :
  let w := startup {["DELTA_WEATHER_API_KEY" := ""]} empty_disk in
  WEATHER_API_KEY w = ""
  /\ length (List.filter is_weather_warning (trace w)) = 1%nat
  /\ get_weather plain_services "paris" w
     = (Return not_configured, log_to w (spoken not_configured))
  /\ List.filter is_http (trace (snd (get_weather plain_services "paris" w))) = [].
Proof.
  apply (weather_key_empty plain_services {["DELTA_WEATHER_API_KEY" := ""]} empty_disk "paris").
  reflexivity.
Defined.

(** C9, as stated, fails: with [DELTA_WEATHER_API_KEY] absent from the
    environment the built-in key is used, start-up logs no weather
    warning, and the weather request goes to the network. *)
Lemma weather_key_absent_counterexample :
  let w := startup ∅ empty_disk in
  (∅ : gmap string string) !! "DELTA_WEATHER_API_KEY" = None
  /\ WEATHER_API_KEY w = "a201655e97c349c993883936250411"
  /\ List.filter is_weather_warning (trace w) = []
  /\ fst (get_weather plain_services "paris" w) <> Return not_configured
  /\ List.filter is_http (trace (snd (get_weather plain_services "paris" w)))
     = [HttpGet "http://api.weatherapi.com/v1/current.json?key=a201655e97c349c993883936250411&q=paris&aqi=no"].
Proof.
  repeat split; try reflexivity. vm_compute. discriminate.
Qed.

(** ** The alarm unit *)

Section AlarmFacts.
Context (num : Numeric) (svc : Services).

Lemma alarm_loop_waits (t msg : string) (before : list string) (w : world) :
  Forall (fun now => now <> t) before ->
  alarm_loop t msg before w = (Return false, log_to w (repeat (Sleep 10) (length before))).
Proof.
  intros H. revert w. induction H as [|now before Hnow _ IH]; intros w; [reflexivity|].
  cbn [alarm_loop]. apply String.eqb_neq in Hnow. rewrite Hnow.
  unfold mbind, M_bind. cbn [emit]. rewrite IH. reflexivity.
Qed.

Lemma alarm_loop_fires (t msg : string) (before after : list string) (w : world) :
  Forall (fun now => now <> t) before ->
  PyStr.is_empty msg = false ->
  alarm_loop t msg (before ++ t :: after) w
  = (Return true, log_to w (repeat (Sleep 10) (length before) ++ spoken msg)).
Proof.
  intros H Hmsg. revert w. induction H as [|now before Hnow _ IH]; intros w.
  - cbn [app alarm_loop]. rewrite String.eqb_refl.
    unfold mbind, M_bind. rewrite (speak_nonempty msg w Hmsg). reflexivity.
  - cbn [app alarm_loop]. apply String.eqb_neq in Hnow. rewrite Hnow.
    unfold mbind, M_bind. cbn [emit]. rewrite IH. reflexivity.
Qed.

Lemma no_speech_in_sleep (text : string) (n : nat) :
  List.filter (is_speech_of text) (repeat (Sleep 10) n) = [].
Proof. induction n; [reflexivity | exact IHn]. Qed.

(** C7.  Asking for an alarm at 07:30 starts the alarm unit with the
    target "07:30".  The unit announces the target, then reads the clock
    once per round and sleeps ten seconds after a reading that differs from
    the target; while no reading equals the target it says nothing more; at
    the first reading that equals the target it says "Alarm ringing" once
    and ends, whatever the clock reads afterwards. *)
Theorem alarm_rings_once (before after : list string) (w : world) :
  Forall (fun now => now <> "07:30") before ->
  process_command num svc "set alarm for 07:30" w
    = (Return "Alarm set for 07:30",
       log_to w (ThreadStart (AlarmThread "07:30" "Alarm ringing")
                 :: spoken "Alarm set for 07:30"))
  /\ run_task (AlarmThread "07:30" "Alarm ringing") before w
     = (Return false,
        log_to w (spoken "Alarm set for 07:30." ++ repeat (Sleep 10) (length before)))
  /\ run_task (AlarmThread "07:30" "Alarm ringing") (before ++ "07:30" :: after) w
     = (Return true,
        log_to w (spoken "Alarm set for 07:30." ++ repeat (Sleep 10) (length before)
                  ++ spoken "Alarm ringing"))
  /\ List.filter (is_speech_of "Alarm ringing")
       (spoken "Alarm set for 07:30." ++ repeat (Sleep 10) (length before))
     = []
  /\ List.filter (is_speech_of "Alarm ringing")
       (spoken "Alarm set for 07:30." ++ repeat (Sleep 10) (length before)
        ++ spoken "Alarm ringing")
     = [ThreadStart (Tts "Alarm ringing")].
Proof.
  intros H. split; [reflexivity|].
  split.
  { unfold run_task, _alarm_thread, mbind, M_bind.
    change (speak _ w) with (speak "Alarm set for 07:30." w).
    rewrite (speak_nonempty "Alarm set for 07:30." w eq_refl), (alarm_loop_waits _ _ _ _ H).
    by rewrite log_to_app. }
  split.
  { unfold run_task, _alarm_thread, mbind, M_bind.
    change (speak _ w) with (speak "Alarm set for 07:30." w).
    rewrite (speak_nonempty "Alarm set for 07:30." w eq_refl),
      (alarm_loop_fires _ "Alarm ringing" _ after _ H eq_refl).
    by rewrite <- log_to_app. }
  split.
  { rewrite List.filter_app, no_speech_in_sleep. reflexivity. }
  rewrite !List.filter_app, no_speech_in_sleep. reflexivity.
Qed.

End AlarmFacts.

Lemma alarm_rings_once_witness :
  Forall (fun now => now <> "07:30") ["07:28"; "07:29"]
  /\ run_task (AlarmThread "07:30" "Alarm ringing")
       ["07:28"; "07:29"; "07:30"; "07:30"; "07:31"] (startup ∅ empty_disk)
     = (Return true,
        log_to (startup ∅ empty_disk)
          (spoken "Alarm set for 07:30." ++ [Sleep 10; Sleep 10] ++ spoken "Alarm ringing")).
Proof.
  assert (H : Forall (fun now => now <> "07:30") ["07:28"; "07:29"])
    by (repeat constructor; discriminate).
  split; [exact H|].
  exact (proj1 (proj2 (proj2
    (alarm_rings_once plain_numeric plain_services ["07:28"; "07:29"] ["07:30"; "07:31"]
       (startup ∅ empty_disk) H)))).
Defined.

(** ** The evaluator *)

Section EvaluatorFacts.
Context (num : Numeric).

Lemma comprehension_returns {A B : Type} (f : A -> outcome B) (l : list A) (vs : list B) :
  comprehension f l = Return vs -> Forall (fun a => exists v, f a = Return v) l.
Proof.
  revert vs. induction l as [|a l IH]; intros vs H; [constructor|].
  cbn [comprehension] in H.
  destruct (f a) as [v|] eqn:Ha; cbn [mbind outcome_bind] in H; [|discriminate].
  fold (comprehension f) in H.
  destruct (comprehension f l) as [vs'|] eqn:Hl; cbn [mbind outcome_bind] in H;
    [|discriminate].
  constructor; eauto.
Qed.

(** Deny by default on what is evaluated: an expression that evaluates has
    only allow-listed names and call targets, allowed operators and numeric
    literals in its evaluated positions. *)
Lemma evaluation_stays_in_tables (n : node) :
  forall v, _eval_node num n = Return v -> reached_ok n = true.
Proof.
  induction n as [c|l o r IHl IHr|o e IHe|f args kws IHf IHargs _|id|? ? _|? ? _ _|? _|? ? _]
    using node_induction; intros v H; cbn [_eval_node] in H; try discriminate.
  - by destruct c.
  - destruct (_eval_node num l) as [vl|] eqn:El; cbn [mbind outcome_bind] in H;
      [|discriminate].
    destruct (_eval_node num r) as [vr|] eqn:Er; cbn [mbind outcome_bind] in H;
      [|discriminate].
    cbn [reached_ok]. rewrite (IHl _ eq_refl), (IHr _ eq_refl).
    destruct (ALLOWED_OPERATORS (BinClass o)); [reflexivity | discriminate].
  - cbn [reached_ok].
    destruct (ALLOWED_OPERATORS (UnClass o)); [|discriminate].
    destruct (_eval_node num e) as [ve|] eqn:Ee; cbn [mbind outcome_bind] in H;
      [|discriminate].
    by rewrite (IHe _ eq_refl).
  - destruct f; try discriminate.
    cbn [reached_ok].
    destruct (SAFE_NAMES !! id) as [callee|]; [|discriminate].
    destruct (comprehension (_eval_node num) args) as [vs|] eqn:Eargs;
      cbn [mbind outcome_bind] in H; [|discriminate].
    apply comprehension_returns in Eargs.
    rewrite bool_decide_eq_true_2 by eauto. cbn [andb].
    apply forallb_forall. intros a Ha.
    rewrite List.Forall_forall in IHargs, Eargs.
    destruct (Eargs a Ha) as [va Hva].
    exact (IHargs a Ha va Hva).
  - cbn [reached_ok]. destruct (SAFE_NAMES !! id); [reflexivity | discriminate].
Qed.

(** The single failure mode of [_safe_eval]. *)
Lemma safe_eval_fails_one_way (expr : string) :
  (exists v, _safe_eval num expr = Return v)
  \/ _safe_eval num expr = Raise (ValueError "Invalid expression").
Proof.
  unfold _safe_eval, try_except.
  destruct (ast_parse expr ≫= _eval_node num); eauto.
Qed.

Lemma safe_eval_returns (expr : string) (v : value) :
  _safe_eval num expr = Return v ->
  exists n, ast_parse expr = Return n /\ _eval_node num n = Return v
            /\ reached_ok n = true.
Proof.
  unfold _safe_eval, try_except. intros H.
  destruct (ast_parse expr) as [n|] eqn:Hp; [|discriminate].
  cbn in H. destruct (_eval_node num n) as [v'|] eqn:He; [|discriminate].
  exists n. split; [reflexivity|]. split; [congruence|].
  exact (evaluation_stays_in_tables n v' He).
Qed.


End EvaluatorFacts.

Section EvaluatorClaims.
Context (num : Numeric) (svc : Services).


(** C4: the code at "2^3".  The parser reads [^] as [BitXor], which is no
    key of [ALLOWED_OPERATORS]: whatever the operands, the evaluation
    fails, and the router, which sends an utterance with [^] to the
    evaluator, apologises.  Power is [**]; [/] is the true division, [//]
    the floor division and [%] the remainder with the sign of the
    divisor. *)
Theorem caret_is_not_power (w : world) :
  ast_parse "2^3" = Return (BinOp (Constant (CInt 2)) BitXor (Constant (CInt 3)))
  /\ _safe_eval num "2^3" = Raise (ValueError "Invalid expression")
  /\ (forall (l r : node) (v : value), _eval_node num (BinOp l BitXor r) <> Return v)
  /\ process_command num svc "2^3" w
     = (Return "I couldn't calculate that.", log_to w (spoken "I couldn't calculate that."))
  /\ _safe_eval num "2**3" = Return (VInt 8)
  /\ _safe_eval num "7 / 2" = Return (VFloat (float_of_decimal 35 (-1)))
  /\ _safe_eval num "7 // 2" = Return (VInt 3)
  /\ _safe_eval num "-7 // 2" = Return (VInt (-4))
  /\ _safe_eval num "7 % 3" = Return (VInt 1)
  /\ _safe_eval num "-7 % 3" = Return (VInt 2).
Proof.
  repeat split; try reflexivity.
  intros l r v H. apply evaluation_stays_in_tables in H.
  cbn [reached_ok] in H. rewrite andb_false_r in H. discriminate.
Qed.

(** C1: the code at an expression whose keyword argument names
    [__import__].  The expression mentions an identifier outside the
    allow-list and a string literal, and yet evaluates, to the float 4:
    [_eval_node] never looks at [node.keywords]. *)
Theorem keyword_arguments_are_not_checked :
  (exists n, ast_parse "sqrt(16, x=__import__('os'))" = Return n
             /\ In "__import__" (Spec.identifiers n)
             /\ ~ In "__import__" Spec.allow_list)
  /\ _safe_eval num "sqrt(16, x=__import__('os'))" = (f ← float_of_Z 4; Return (VFloat f)).
Proof.
  split; [|reflexivity].
  eexists. split; [reflexivity|].
  split; [cbn; tauto|].
  cbn. intros H. repeat destruct H as [H|H]; try discriminate H. exact H.
Qed.

(** C10: the code at "sin".  The name of an allow-listed function alone
    evaluates to the function object, which is no number, and the router
    reads it out as the result. *)
Theorem function_name_is_a_result (w : world) :
  _safe_eval num "sin" = Return (VFun m_sin)
  /\ is_number (VFun m_sin) = false
  /\ process_command num svc "what is sin" w
     = (Return "The result is <built-in function sin>",
        log_to w (spoken "The result is <built-in function sin>")).
Proof. repeat split; reflexivity. Qed.

(** Foreign names, attribute access, subscripts, string literals and the
    other operators fail where they are evaluated. *)
Lemma foreign_constructs_fail :
  Forall (fun expr => _safe_eval num expr = Raise (ValueError "Invalid expression"))
    ["__import__('os')"; "__import__('os').system('ls')"; "open('x')"; "x";
     "pi.real"; "sin.__self__"; "pi[0]"; "'a'"; "None"; "2j"; "+1"; "~1";
     "1 | 2"; "1 << 2"; "sqrt(x)"; "sqrt(16, sin.__self__)"].
Proof. repeat constructor; reflexivity. Qed.

(** The literal [True] is a [Constant] whose value is an [int] by
    subclassing: it evaluates. *)
Lemma boolean_literal_accepted :
  _safe_eval num "True" = Return (VBool true)
  /\ _safe_eval num "True + True" = Return (VInt 2).
Proof. split; reflexivity. Qed.

(** Faults at run time inside the grammar come out as the one
    [ValueError]. *)
Lemma arithmetic_faults :
  Forall (fun expr => _safe_eval num expr = Raise (ValueError "Invalid expression"))
    ["1 / 0"; "1 // 0"; "1 % 0"; "1.5 / 0"; "1 / 0.0"; "factorial(-1)"; "sqrt(-1)"].
Proof.
  repeat constructor; try reflexivity.
  destruct num as [? ? ? ? ? ? ? ? ? ? [] ? ? ?]; reflexivity.
Qed.

(** The Calculate rule turns every failure of the evaluation, or of the
    rendering of its result, into the apology. *)
Lemma calculate_apologises (expr : string) (w : world) :
  (forall v, _safe_eval num expr = Return v -> exists e, format_result num v = Raise e) ->
  try_catch
    (result ← lift (_safe_eval num expr);
     text ← lift (format_result num result);
     speak text)
    (fun _ => speak "I couldn't calculate that.") w
  = (Return "I couldn't calculate that.", log_to w (spoken "I couldn't calculate that.")).
Proof.
  intros H. unfold try_catch, mbind, M_bind, lift.
  destruct (_safe_eval num expr) as [v|e]; [|reflexivity].
  destruct (H v eq_refl) as [e He]. rewrite He. reflexivity.
Qed.

Lemma calculate_division_by_zero (w : world) :
  process_command num svc "calculate 1 / 0" w
  = (Return "I couldn't calculate that.", log_to w (spoken "I couldn't calculate that.")).
Proof. reflexivity. Qed.

End EvaluatorClaims.


(** * Further properties *)

(** ** Normalisation of the utterance *)

Section Normalisation.
Import PyStr.

Lemma isspace_lower_char c : isspace (lower_char c) = isspace c.
Proof. destruct c as [[] [] [] [] [] [] [] []]; reflexivity. Qed.

Lemma lower_char_lower_char c : lower_char (lower_char c) = lower_char c.
Proof. destruct c as [[] [] [] [] [] [] [] []]; reflexivity. Qed.

Lemma lower_lower s : lower (lower s) = lower s.
Proof.
  unfold lower. induction s as [|c s IH]; [reflexivity|].
  cbn [map_chars]. by rewrite lower_char_lower_char, IH.
Qed.

Lemma is_empty_lower s : is_empty (lower s) = is_empty s.
Proof. by destruct s. Qed.

Lemma lower_lstrip s : lower (lstrip s) = lstrip (lower s).
Proof.
  unfold lower. induction s as [|c s IH]; [reflexivity|].
  cbn [lstrip map_chars]. rewrite isspace_lower_char.
  destruct (isspace c); [exact IH | reflexivity].
Qed.

Lemma lower_rstrip s : lower (rstrip s) = rstrip (lower s).
Proof.
  unfold lower. induction s as [|c s IH]; [reflexivity|].
  cbn [rstrip map_chars]. rewrite isspace_lower_char, <- IH.
  fold (lower (rstrip s)). rewrite is_empty_lower.
  destruct (isspace c && is_empty (rstrip s)); reflexivity.
Qed.

Lemma lower_strip s : lower (strip s) = strip (lower s).
Proof. unfold strip. by rewrite lower_rstrip, lower_lstrip. Qed.

Lemma rstrip_rstrip s : rstrip (rstrip s) = rstrip s.
Proof.
  induction s as [|c s IH]; [reflexivity|].
  cbn [rstrip]. destruct (isspace c && is_empty (rstrip s)) eqn:E; [reflexivity|].
  cbn [rstrip]. by rewrite IH, E.
Qed.

(** What is left of a stripped text starts and ends with a character that
    is no whitespace. *)
Lemma lstrip_head s c r : lstrip s = String c r -> isspace c = false.
Proof.
  induction s as [|d s IH]; [discriminate|].
  cbn [lstrip]. destruct (isspace d) eqn:E; [exact IH|].
  intros H. injection H as <- _. exact E.
Qed.

Lemma lstrip_fixed s :
  match s with String c _ => isspace c = false | EmptyString => True end ->
  lstrip s = s.
Proof. destruct s as [|c r]; [reflexivity|]. cbn [lstrip]. by intros ->. Qed.

Lemma rstrip_keeps_head c r :
  isspace c = false -> rstrip (String c r) = String c (rstrip r).
Proof. intros H. cbn [rstrip]. by rewrite H. Qed.

Lemma strip_strip s : strip (strip s) = strip s.
Proof.
  unfold strip. destruct (lstrip s) as [|c r] eqn:E; [reflexivity|].
  pose proof (lstrip_head s c r E) as Hc.
  rewrite (rstrip_keeps_head c r Hc).
  rewrite (lstrip_fixed (String c (rstrip r)) Hc).
  rewrite <- (rstrip_keeps_head c r Hc). apply rstrip_rstrip.
Qed.

(** Normalising twice is normalising once. *)
Lemma normalise_twice s : strip (lower (strip (lower s))) = strip (lower s).
Proof. by rewrite lower_strip, lower_lower, strip_strip. Qed.

Lemma strip_empty_of_empty s : is_empty s = true -> is_empty (strip (lower s)) = true.
Proof. by destruct s. Qed.

End Normalisation.

Section NormalisedRouting.
Context (num : Numeric) (svc : Services).

(** X1.  The router answers an utterance as it answers its normalised
    form: upper case and surrounding whitespace make no difference, as long
    as something is left after the normalisation. *)
Theorem router_reads_normalised_text (command : string) (w : world) :
  PyStr.is_empty (PyStr.strip (PyStr.lower command)) = false ->
  process_command num svc command w
  = process_command num svc (PyStr.strip (PyStr.lower command)) w.
Proof.
  intros Hne.
  assert (Hc : PyStr.is_empty command = false).
  { destruct (PyStr.is_empty command) eqn:E; [|reflexivity].
    by rewrite (strip_empty_of_empty command E) in Hne. }
  unfold process_command. rewrite Hc, Hne, normalise_twice. reflexivity.
Qed.

End NormalisedRouting.

Lemma router_reads_normalised_text_witness :
  PyStr.is_empty (PyStr.strip (PyStr.lower "  What IS the Weather in Paris ")) = false
  /\ process_command plain_numeric plain_services "  What IS the Weather in Paris "
       (startup ∅ empty_disk)
     = process_command plain_numeric plain_services "what is the weather in paris"
         (startup ∅ empty_disk).
Proof.
  split; [reflexivity|].
  exact (router_reads_normalised_text plain_numeric plain_services
           "  What IS the Weather in Paris " (startup ∅ empty_disk) eq_refl).
Defined.

(** ** What a handler adds to the world *)

Section Adding.
Variable P : event -> Prop.
Hypothesis P_quiet : forall e, is_http e = false -> P e.








Lemma adds_at_unsure {A : Type} sure (m : M A) w :
  adds_at P sure m w -> adds_at P false m w.
Proof.
  intros (r & evs & Hm & HP & _). exists r, evs. repeat split; [done..|discriminate].
Qed.

Context (num : Numeric) (svc : Services).





End Adding.

(** ** The router as a whole *)

Section Router.
Context (num : Numeric) (svc : Services).







End Router.




(** ** The stored name *)

Section StoredName.
Context (num : Numeric) (svc : Services).





End StoredName.




(** ** The evaluator, further *)

Section EvaluatorFurther.
Context (num : Numeric).

Lemma reached_names_allow_listed (n : node) :
  reached_ok n = true ->
  forall id, In id (positional_identifiers n) -> is_Some (SAFE_NAMES !! id).
Proof.
  induction n as [c|l o r IHl IHr|o e IHe|f args kws IHf IHargs _|id0|? ? _|? ? _ _|? _|? ? _]
    using node_induction; cbn [reached_ok positional_identifiers]; intros H id Hid;
    try discriminate.
  - destruct Hid.
  - apply andb_true_iff in H as [H _]. apply andb_true_iff in H as [Hl Hr].
    apply in_app_or in Hid as [Hid|Hid]; eauto.
  - apply andb_true_iff in H as [_ He]. eauto.
  - destruct f; try discriminate. cbn [positional_identifiers] in Hid.
    apply andb_true_iff in H as [Hf Hargs]. apply bool_decide_eq_true in Hf.
    destruct Hid as [<-|Hid]; [exact Hf|].
    apply in_flat_map in Hid as (a & Ha & Hid).
    rewrite forallb_forall in Hargs. rewrite List.Forall_forall in IHargs.
    exact (IHargs a Ha (Hargs a Ha) id Hid).
  - apply bool_decide_eq_true in H. destruct Hid as [<-|[]]. exact H.
Qed.

(** X8.  An expression that names, anywhere outside a keyword argument,
    an identifier that is no key of [SAFE_NAMES] does not evaluate:
    [_safe_eval] raises its [ValueError]. *)
Theorem foreign_identifier_is_refused (expr : string) (n : node) (id : string) :
  ast_parse expr = Return n ->
  In id (positional_identifiers n) ->
  SAFE_NAMES !! id = None ->
  _safe_eval num expr = Raise (ValueError "Invalid expression").
Proof.
  intros Hp Hid Hnone. unfold _safe_eval, try_except. rewrite Hp.
  cbn [mbind outcome_bind].
  destruct (_eval_node num n) as [v|e] eqn:He; [|reflexivity].
  apply evaluation_stays_in_tables in He.
  destruct (reached_names_allow_listed n He id Hid) as [v' Hv]. congruence.
Qed.

Lemma division_by_zero_raises (f : pyfun) (a b : value) :
  f = op_truediv \/ f = op_floordiv \/ f = op_mod ->
  is_complex a = false ->
  is_zero_value b = true ->
  exists e, binary num f a b = Raise e.
Proof.
  intros Hf Ha Hb.
  assert (Hint : forall x y, y = 0 -> exists e, int_arith num f x y = Raise e).
  { intros x y ->. destruct Hf as [-> | [-> | ->]]; cbn; eauto. }
  assert (Hfloat : forall x y, is_zero y = true -> exists e, float_arith num f x y = Raise e).
  { intros x y Hy. destruct Hf as [-> | [-> | ->]]; cbn; rewrite Hy; eauto. }
  destruct b as [y|[|]|y|? ?|?]; try discriminate; cbn in Hb.
  - apply Z.eqb_eq in Hb.
    destruct a as [x|bx|x|? ?|?]; try discriminate; cbn.
    + apply Hint, Hb.
    + apply Hint, Hb.
    + subst y. apply Hfloat. reflexivity.
    + eauto.
  - destruct a as [x|bx|x|? ?|?]; try discriminate; cbn.
    + by apply Hint.
    + by apply Hint.
    + apply Hfloat. reflexivity.
    + eauto.
  - destruct a as [x|bx|x|? ?|?]; try discriminate; cbn.
    + destruct (float_of_Z x); cbn; [by apply Hfloat | eauto].
    + destruct (float_of_Z (Z.b2z bx)); cbn; [by apply Hfloat | eauto].
    + by apply Hfloat.
    + eauto.
Qed.

(** X9.  Division by zero fails, whatever the operands look like: when
    the right operand of [/], [//] or [%] evaluates to [0], [False], [0.0]
    or [-0.0] and the left operand to anything but a complex number, the
    evaluation of the operation raises. *)
Theorem zero_divisor_is_refused (l r : node) (o : operator) (x z : value) :
  o = Div \/ o = FloorDiv \/ o = Mod ->
  _eval_node num l = Return x ->
  is_complex x = false ->
  _eval_node num r = Return z ->
  is_zero_value z = true ->
  exists e, _eval_node num (BinOp l o r) = Raise e.
Proof.
  intros Ho Hl Hx Hr Hz. cbn [_eval_node]. rewrite Hl, Hr. cbn [mbind outcome_bind].
  destruct Ho as [-> | [-> | ->]]; cbn [ALLOWED_OPERATORS apply_op];
    apply division_by_zero_raises; auto.
Qed.

End EvaluatorFurther.

Lemma foreign_identifier_is_refused_witness :
  _safe_eval plain_numeric "sqrt(16) + floor(os.getpid())"
  = Raise (ValueError "Invalid expression").
Proof.
  refine (foreign_identifier_is_refused plain_numeric "sqrt(16) + floor(os.getpid())"
            _ "os" eq_refl _ eq_refl).
  cbn. tauto.
Defined.

Lemma zero_divisor_is_refused_witness :
  exists e,
    _eval_node plain_numeric
      (BinOp (Constant (CFloat math_pi)) Mod
         (BinOp (Constant (CInt 2)) Sub (Constant (CInt 2))))
    = Raise e.
Proof.
  exact (zero_divisor_is_refused plain_numeric (Constant (CFloat math_pi))
           (BinOp (Constant (CInt 2)) Sub (Constant (CInt 2))) Mod
           (VFloat math_pi) (VInt 0)
           (or_intror (or_intror eq_refl)) eq_refl eq_refl eq_refl eq_refl).
Defined.


(** ** Alarms *)

Section AlarmFurther.
Import PyStr.

Lemma below_covers (n : nat) (z : Z) : 0 <= z < Z.of_nat n -> In z (below n).
Proof.
  intros H. unfold below. apply in_map_iff. exists (Z.to_nat z).
  split; [lia|]. apply in_seq. lia.
Qed.







(** [set_alarm] on an utterance with a clock text. *)
Lemma set_alarm_reply (command g : string) (w : world) :
  Re.search_clock command = Some g ->
  set_alarm command w
  = (Return ("Alarm set for " ++ alarm_target g),
     log_to w (ThreadStart (AlarmThread (alarm_target g) "Alarm ringing")
               :: spoken ("Alarm set for " ++ alarm_target g))).
Proof.
  intros H. unfold set_alarm, alarm_target, clock_text. rewrite H.
  destruct (Re.split_clock g). reflexivity.
Qed.


Lemma targets_reading_always (h m : Z) :
  0 <= h < 24 -> 0 <= m < 60 -> targets_reading h m = true.
Proof.
  intros Hh Hm. apply (below_covers 24) in Hh. apply (below_covers 60) in Hm.
  assert (H : forallb (fun h => forallb (targets_reading h) (below 60)) (below 24) = true)
    by (vm_compute; reflexivity).
  rewrite forallb_forall in H. specialize (H h Hh).
  rewrite forallb_forall in H. exact (H m Hm).
Qed.

(** X11.  An alarm asked for a time of day, the hour written with or
    without a leading zero, gets the reading of that time as its target,
    and its thread says "Alarm ringing" once, at the first reading of that
    time, and ends. *)
Theorem alarm_for_a_time_of_day (h m : Z) (g : string) (before after : list string)
    (w : world) :
  0 <= h < 24 -> 0 <= m < 60 ->
  In g (spoken_times h m) ->
  Forall (fun now => now <> clock_text h m) before ->
  set_alarm ("set alarm for " ++ g) w
  = (Return ("Alarm set for " ++ clock_text h m),
     log_to w (ThreadStart (AlarmThread (clock_text h m) "Alarm ringing")
               :: spoken ("Alarm set for " ++ clock_text h m)))
  /\ forall w',
      run_task (AlarmThread (clock_text h m) "Alarm ringing")
        (before ++ clock_text h m :: after) w'
      = (Return true,
         log_to w' (spoken ("Alarm set for " ++ clock_text h m ++ ".")
                    ++ repeat (Sleep 10) (length before) ++ spoken "Alarm ringing")).
Proof.
  intros Hh Hm Hg Hbefore.
  pose proof (targets_reading_always h m Hh Hm) as Ht. unfold targets_reading in Ht.
  rewrite forallb_forall in Ht. specialize (Ht g Hg).
  destruct (Re.search_clock ("set alarm for " ++ g)) as [g'|] eqn:Es; [|discriminate].
  apply andb_true_iff in Ht as [Eg Et].
  apply String.eqb_eq in Eg as ->. apply String.eqb_eq in Et.
  split.
  - rewrite (set_alarm_reply _ g w Es), Et. reflexivity.
  - intros w'. unfold run_task, _alarm_thread, mbind, M_bind.
    rewrite speak_nonempty by reflexivity.
    rewrite (alarm_loop_fires _ "Alarm ringing" _ after _ Hbefore eq_refl).
    by rewrite <- log_to_app.
Qed.

End AlarmFurther.


Lemma alarm_for_a_time_of_day_witness :
  set_alarm "set alarm for 7:05" (startup ∅ empty_disk)
  = (Return "Alarm set for 07:05",
     log_to (startup ∅ empty_disk)
       (ThreadStart (AlarmThread "07:05" "Alarm ringing") :: spoken "Alarm set for 07:05")).
Proof.
  refine (proj1 (alarm_for_a_time_of_day 7 5 "7:05" [] [] (startup ∅ empty_disk)
                   _ _ _ _)).
  - lia.
  - lia.
  - right. left. reflexivity.
  - constructor.
Defined.

(** ** News *)

Section News.
Context (svc : Services).
Import PyStr.

Lemma is_empty_app_r (a : string) (c : ascii) (r : string) :
  is_empty (a ++ String c r) = false.
Proof. by destruct a. Qed.

Lemma headlines_length (items : list (option string)) :
  forall i, length (headlines i items) = length items.
Proof. induction items as [|a rest IH]; intros i; [reflexivity|]. cbn. by rewrite IH. Qed.

(** The loop speaks the lines it returns, in order. *)
Lemma speak_headlines_run (items : list (option string)) : forall i w,
  speak_headlines i items w
  = (Return (headlines i items), log_to w (flat_map spoken (headlines i items))).
Proof.
  induction items as [|a rest IH]; intros i w; [reflexivity|].
  cbn [speak_headlines headlines flat_map]. unfold mbind, M_bind.
  rewrite speak_nonempty by apply is_empty_app_r.
  rewrite IH. by rewrite log_to_app.
Qed.

(** X12.  With a news key and an "ok" reply that lists at least one
    article, [get_news] sends one request, announces the headlines, then
    speaks one numbered line for each of the first five articles and for
    no other, "No title" standing for a missing title; its reply is these
    lines, one per line of text. *)
Theorem news_reads_five_headlines (titles : list (option string)) (w : world) :
  let url := "https://newsapi.org/v2/top-headlines?country=in&apiKey=" ++ NEWS_API_KEY w in
  let lines := headlines 1 (take 5 titles) in
  is_empty (NEWS_API_KEY w) = false ->
  news_api svc url = NewsOk titles ->
  titles <> [] ->
  get_news svc w
  = (Return (join_lines lines),
     log_to w (HttpGet url :: spoken "Here are the top headlines:"
               ++ flat_map spoken lines))
  /\ length lines = Nat.min 5 (length titles).
Proof.
  intros url lines Hkey Hreply Hsome. subst lines. split.
  - unfold get_news, mbind, M_bind, get_world. cbv beta iota.
    rewrite Hkey. cbv zeta. fold url. cbn [emit]. cbv beta iota.
    rewrite Hreply. cbv beta iota.
    destruct (take 5 titles) as [|a rest] eqn:E.
    { destruct titles; [by destruct Hsome|discriminate E]. }
    rewrite speak_nonempty by reflexivity.
    rewrite speak_headlines_run. reflexivity.
  - rewrite headlines_length. apply length_take.
Qed.

End News.

Lemma news_reads_five_headlines_witness :
  length (headlines 1 (take 5 [Some "a"; None; Some "c"; Some "d"; Some "e"; Some "f"]))
  = 5%nat.
Proof.
  pose (svc := {| strftime := strftime plain_services;
                  wikipedia_summary := wikipedia_summary plain_services;
                  get_joke := get_joke plain_services;
                  weather_api := weather_api plain_services;
                  news_api := fun _ =>
                    NewsOk [Some "a"; None; Some "c"; Some "d"; Some "e"; Some "f"];
                  dictionary_api := dictionary_api plain_services;
                  startfile := startfile plain_services;
                  object_str := object_str plain_services |}).
  refine (proj2 (news_reads_five_headlines svc
                   [Some "a"; None; Some "c"; Some "d"; Some "e"; Some "f"]
                   (startup ∅ empty_disk) _ _ _)).
  - reflexivity.
  - reflexivity.
  - discriminate.
Defined.

(** ** Reminders *)

Section Reminders.
Import PyStr.













End Reminders.


(** ** The callers of the router *)

Section Callers.
Context (num : Numeric) (svc : Services).
Import PyStr.

(** X14.  An exception of the router reaches the two front ends
    differently.  The console loop has no handler around the routing, so
    the exception leaves the round (and with it the loop, which catches
    [KeyboardInterrupt] only); the tasks of the window, [manual_listen] and
    [_handle_activation], catch it and end normally.  The effects made
    before the exception stay in each case. *)
Theorem window_survives_a_router_failure (text : string) (follow_up : hearing)
    (e : exn) (w w' : world) :
  process_command num svc (lower text) w = (Raise e, w') ->
  console_round num svc (Recognized text) w = (Raise e, w')
  /\ manual_listen num svc (Recognized text) w = (Return tt, w')
  /\ _handle_activation num svc (lower text) follow_up w = (Return tt, w').
Proof.
  intros H.
  destruct (lower text) as [|a s] eqn:E.
  { exfalso. unfold process_command in H. cbn [is_empty] in H. cbv iota in H.
    rewrite speak_nonempty in H by reflexivity. discriminate H. }
  unfold console_round, manual_listen, _handle_activation, listen, try_catch,
    mbind, M_bind, mret, M_ret.
  rewrite E. cbn [is_empty negb]. cbv beta iota. rewrite H. auto.
Qed.

End Callers.

Lemma window_survives_a_router_failure_witness :
  console_round plain_numeric plain_services (Recognized "Call me Ada")
    (startup ∅ list_on_disk)
  = (Raise TypeError, startup ∅ list_on_disk)
  /\ manual_listen plain_numeric plain_services (Recognized "Call me Ada")
       (startup ∅ list_on_disk)
     = (Return tt, startup ∅ list_on_disk)
  /\ _handle_activation plain_numeric plain_services (PyStr.lower "Call me Ada")
       UnknownValue (startup ∅ list_on_disk)
     = (Return tt, startup ∅ list_on_disk).
Proof.
  refine (window_survives_a_router_failure plain_numeric plain_services
            "Call me Ada" UnknownValue TypeError
            (startup ∅ list_on_disk) (startup ∅ list_on_disk) _).
  reflexivity.
Defined.

(** ** E-mail *)

Section Email.
Import PyStr.

(** X15.  When [DELTA_EMAIL_SENDER] or [DELTA_EMAIL_PASSWORD] is absent
    from the environment, or set to the empty string, the module logs the
    e-mail warning once at start-up, and [send_email] answers that e-mail
    is not configured without building a message or opening an SMTP
    session, whatever that session would have done. *)
Theorem email_is_off_without_credentials (environ : gmap string string) (d : disk)
    (transport : string -> string -> string -> outcome unit)
    (to subject body : string) :
  let w := startup environ d in
  let warning :=
    Log WARNING "Email sender/password not set — email feature disabled until configured." in
  let reply :=
    "Email not configured. Set DELTA_EMAIL_SENDER and DELTA_EMAIL_PASSWORD to enable sending." in
  environ_get environ "DELTA_EMAIL_SENDER" "" = ""
  \/ environ_get environ "DELTA_EMAIL_PASSWORD" "" = "" ->
  (exists earlier, trace w = (earlier ++ [warning])%list /\ ~ In warning earlier)
  /\ send_email transport to subject body w = (Return reply, log_to w (spoken reply)).
Proof.
  intros w warning reply Hoff.
  assert (Hempty : is_empty (environ_get environ "DELTA_EMAIL_SENDER" "")
                   || is_empty (environ_get environ "DELTA_EMAIL_PASSWORD" "") = true).
  { destruct Hoff as [-> | ->]; [reflexivity|apply orb_true_r]. }
  split.
  - subst w. unfold startup. cbv zeta. cbn [trace].
    rewrite Hempty. rewrite app_assoc. eexists. split; [reflexivity|].
    intros Hin. apply in_app_or in Hin as [Hin | Hin].
    + destruct (is_empty _) in Hin;
        [destruct Hin as [Hin | []]; discriminate Hin|destruct Hin].
    + destruct (is_empty _) in Hin;
        [destruct Hin as [Hin | []]; discriminate Hin|destruct Hin].
  - unfold send_email, mbind, M_bind, get_world. cbv beta iota.
    subst w. unfold startup at 1 2. cbv zeta. cbn [EMAIL_SENDER EMAIL_PASSWORD].
    rewrite Hempty. by rewrite speak_nonempty.
Qed.

End Email.

Lemma email_is_off_without_credentials_witness :
  send_email (fun _ _ _ => Return tt) "ada@example.org" "Hello" "Tea at five?"
    (startup {["DELTA_EMAIL_SENDER" := "delta@example.org"]} empty_disk)
  = (Return "Email not configured. Set DELTA_EMAIL_SENDER and DELTA_EMAIL_PASSWORD to enable sending.",
     log_to (startup {["DELTA_EMAIL_SENDER" := "delta@example.org"]} empty_disk)
       (spoken "Email not configured. Set DELTA_EMAIL_SENDER and DELTA_EMAIL_PASSWORD to enable sending.")).
Proof.
  refine (proj2 (email_is_off_without_credentials
                   {["DELTA_EMAIL_SENDER" := "delta@example.org"]} empty_disk
                   (fun _ _ _ => Return tt) "ada@example.org" "Hello" "Tea at five?"
                   _)).
  right. reflexivity.
Defined.

(** ** The wake word *)

Section WakeWord.
Import PyStr.




End WakeWord.

